(** * The storefront component: filter engine and cart manager

    A shallow embedding of the [App] component of [src/react.jsx] (the
    second source file is the same component without comments).  The
    component keeps seven [useState] cells; its inner functions read the
    cells of the current render and write them through the setters.  Here
    the cells are the fields of a record [State] and every inner function
    is a function from the state of the current render to the next one.

    Numbers: product ids, stock counts and quantities are integers ([Z]);
    prices are finite JavaScript numbers, taken as the rationals they
    denote ([Q]): the comparators below only use the sign of a
    difference of two prices, which is the sign of the exact difference.
    Comparisons of integers are exact in the code.  Its sums and
    differences are those of doubles: they are the exact ones used here as
    long as the operands and the result are safe integers
    ([Js.isSafeInteger]), and round beyond [2 ^ 53].  The statements that
    give the exact value of a sum or a difference say so in a hypothesis. *)

From Stdlib Require Import ZArith QArith Lqa List Sorted Permutation Ascii String Bool Lia.
From stdpp Require Import base gmap list strings.

Close Scope Q_scope.
Open Scope string_scope.
Open Scope list_scope.
Open Scope Z_scope.

(** ** The built-ins of the language that the component calls *)

Module Js.

(** [ToBoolean] on a string: only the empty string is falsy. *)
Definition truthy (s : string) : bool :=
  match s with
  | EmptyString => false
  | String _ _ => true
  end.

(** [String.prototype.toLowerCase], on strings of 8-bit characters: the
    letters [A]..[Z] go to [a]..[z], every other character stays. *)
Definition toLowerCase_char (c : ascii) : ascii :=
  let n := N_of_ascii c in
  if ((65 <=? n) && (n <=? 90))%N then ascii_of_N (n + 32) else c.

Fixpoint toLowerCase (s : string) : string :=
  match s with
  | EmptyString => EmptyString
  | String c s' => String (toLowerCase_char c) (toLowerCase s')
  end.

(** [String.prototype.includes]: [sub] occurs in [s] at some position. *)
Fixpoint includes (s sub : string) : bool :=
  String.prefix sub s
  || match s with
     | EmptyString => false
     | String _ s' => includes s' sub
     end.

(** [Array.prototype.sort] with a comparison function.  The language
    requires the sort to be stable; for a comparison function that is a
    consistent ordering the result is then determined, and a stable
    insertion sort computes it.  [comparefn x y <= 0] keeps [x] in
    front of [y]; [x] moves behind [y] only when [comparefn x y > 0]. *)
Fixpoint insert {A : Type} (comparefn : A -> A -> Q) (x : A) (l : list A) : list A :=
  match l with
  | [] => [x]
  | y :: l' =>
      if Qle_bool (comparefn x y) 0 then x :: y :: l'
      else y :: insert comparefn x l'
  end.

Definition sort {A : Type} (comparefn : A -> A -> Q) (l : list A) : list A :=
  foldr (insert comparefn) [] l.

(** [new Set(iterable)] followed by a spread: the values in the order of
    their first insertion, a value already present is not added again. *)
Definition Set_add (s : list string) (x : string) : list string :=
  if existsb (String.eqb x) s then s else s ++ [x].

Definition Set_from (l : list string) : list string :=
  fold_left Set_add l [].

(** [Number.MAX_SAFE_INTEGER] and [Number.isSafeInteger] on an integer:
    up to here every integer is a number, and a sum or difference of two
    safe integers is computed exactly. *)
Definition MAX_SAFE_INTEGER : Z := 2 ^ 53 - 1.

Definition isSafeInteger (z : Z) : Prop :=
  - MAX_SAFE_INTEGER <= z <= MAX_SAFE_INTEGER.

(** What a call can do besides returning: throw. *)
Inductive exn : Type := TypeError.

Inductive completion (A : Type) : Type :=
| Normal (a : A)
| Throw (e : exn).
Arguments Normal {A} a.
Arguments Throw {A} e.

(** A statement that throws ends the function: what follows runs only on
    a normal completion. *)
Definition bind {A B : Type} (c : completion A) (k : A -> completion B) : completion B :=
  match c with
  | Normal a => k a
  | Throw e => Throw e
  end.

End Js.

(** ** Data model *)

(** A product as the catalog endpoint delivers it; [rating.count] is the
    stock of the product. *)
Record Rating : Type := { count : Z }.

Record Product : Type := {
  id : Z;
  title : string;
  price : Q;
  category : string;
  image : string;
  rating : Rating
}.

(** A cart line is [{ ...product, quantity }]: the fields of the product
    and a quantity.  The coercion lets [id item], [rating item] read the
    copied fields. *)
Record CartItem : Type := {
  item_product :> Product;
  quantity : Z
}.

(** The [useState] cells of [App]. *)
Record State : Type := {
  products : list Product;
  filteredProducts : list Product;
  cart : list CartItem;
  searchTerm : string;
  selectedCategory : string;
  sortOrder : string;
  loading : bool
}.

Definition setFilteredProducts (v : list Product) (st : State) : State :=
  {| products := products st; filteredProducts := v; cart := cart st;
     searchTerm := searchTerm st; selectedCategory := selectedCategory st;
     sortOrder := sortOrder st; loading := loading st |}.

Definition setCart (v : list CartItem) (st : State) : State :=
  {| products := products st; filteredProducts := filteredProducts st; cart := v;
     searchTerm := searchTerm st; selectedCategory := selectedCategory st;
     sortOrder := sortOrder st; loading := loading st |}.

Definition setSearchTerm (v : string) (st : State) : State :=
  {| products := products st; filteredProducts := filteredProducts st; cart := cart st;
     searchTerm := v; selectedCategory := selectedCategory st;
     sortOrder := sortOrder st; loading := loading st |}.

Definition setSelectedCategory (v : string) (st : State) : State :=
  {| products := products st; filteredProducts := filteredProducts st; cart := cart st;
     searchTerm := searchTerm st; selectedCategory := v;
     sortOrder := sortOrder st; loading := loading st |}.

Definition setSortOrder (v : string) (st : State) : State :=
  {| products := products st; filteredProducts := filteredProducts st; cart := cart st;
     searchTerm := searchTerm st; selectedCategory := selectedCategory st;
     sortOrder := v; loading := loading st |}.

(** ** Filter engine *)

(** The two comparison functions of [applyFilters]. *)
Definition low_high (a b : Product) : Q := (price a - price b)%Q.
Definition high_low (a b : Product) : Q := (price b - price a)%Q.

(** The callbacks of the two [filter] calls. *)
Definition matches_search (searchTerm : string) (product : Product) : bool :=
  Js.includes (Js.toLowerCase (title product)) (Js.toLowerCase searchTerm).

Definition matches_category (selectedCategory : string) (product : Product) : bool :=
  String.eqb (category product) selectedCategory.

(** The value of the local [filtered] at the end of [applyFilters], as a
    function of the cells the closure reads.  The specification calls this
    derivation [computeView]. *)
Definition computeView (products : list Product)
    (searchTerm selectedCategory sortOrder : string) : list Product :=
  let filtered := products in
  let filtered :=
    if Js.truthy searchTerm
    then List.filter (matches_search searchTerm) filtered
    else filtered in
  let filtered :=
    if Js.truthy selectedCategory
    then List.filter (matches_category selectedCategory) filtered
    else filtered in
  if String.eqb sortOrder "low-high" then Js.sort low_high filtered
  else if String.eqb sortOrder "high-low" then Js.sort high_low filtered
  else filtered.

Definition applyFilters (st : State) : State :=
  setFilteredProducts
    (computeView (products st) (searchTerm st) (selectedCategory st) (sortOrder st)) st.

Definition clearFilters (st : State) : State :=
  setSortOrder "" (setSelectedCategory "" (setSearchTerm "" st)).

Definition getCategories (st : State) : list string :=
  Js.Set_from (map category (products st)).

(** ** Cart manager *)

(** [{ ...product, quantity: q }], and [{ ...item, quantity: q }] for a
    cart line [item]: the fields of the product and the quantity [q]. *)
Definition line (product : Product) (q : Z) : CartItem :=
  {| item_product := product; quantity := q |}.

Definition addToCart (st : State) (product : Product) : State :=
  let existingItem := List.find (fun item : CartItem => id item =? id product) (cart st) in
  match existingItem with
  | Some existingItem =>
      if quantity existingItem <? count (rating product)
      then setCart
             (map (fun item : CartItem =>
                     if id item =? id product
                     then line item (quantity item + 1)
                     else item)
                  (cart st)) st
      else st
  | None =>
      setCart (cart st ++ [line product 1]) st
  end.

Definition removeFromCart (st : State) (productId : Z) : State :=
  setCart (List.filter (fun item : CartItem => negb (id item =? productId)) (cart st)) st.

(** [product.rating] where [product] is what [find] gave: the property
    read throws a [TypeError] on [undefined]. *)
Definition get_rating (product : option Product) : Js.completion Rating :=
  match product with
  | Some product => Js.Normal (rating product)
  | None => Js.Throw Js.TypeError
  end.

Definition updateQuantity (st : State) (productId newQuantity : Z) : Js.completion State :=
  let product := List.find (fun p => id p =? productId) (products st) in
  Js.bind (get_rating product) (fun product_rating =>
  let maxStock := count product_rating in
  if newQuantity <=? 0 then Js.Normal (removeFromCart st productId)
  else if newQuantity <=? maxStock
  then Js.Normal
         (setCart
            (map (fun item : CartItem =>
                    if id item =? productId
                    then line item newQuantity
                    else item)
                 (cart st)) st)
  else Js.Normal st).

Definition getTotalItems (st : State) : Z :=
  fold_left (fun sum (item : CartItem) => sum + quantity item) (cart st) 0.

Definition isOutOfStock (product : Product) : bool :=
  count (rating product) =? 0.

(** The calls the page makes on the cart, and the handler that runs one.
    A handler that throws has not reached its setter: the cells keep
    their values and the page goes on. *)
Inductive Action : Type :=
| AddToCart (product : Product)
| RemoveFromCart (productId : Z)
| UpdateQuantity (productId newQuantity : Z).

Definition call (st : State) (a : Action) : Js.completion State :=
  match a with
  | AddToCart product => Js.Normal (addToCart st product)
  | RemoveFromCart productId => Js.Normal (removeFromCart st productId)
  | UpdateQuantity productId newQuantity => updateQuantity st productId newQuantity
  end.

Definition dispatch (st : State) (a : Action) : State :=
  match call st a with
  | Js.Normal st' => st'
  | Js.Throw _ => st
  end.

Definition run (st : State) (actions : list Action) : State :=
  fold_left dispatch actions st.

(** The state once the catalog has arrived: the cells as [useState]
    initialises them, [products] set by [fetchProducts]. *)
Definition loaded (catalog : list Product) : State :=
  {| products := catalog; filteredProducts := []; cart := [];
     searchTerm := ""; selectedCategory := ""; sortOrder := ""; loading := false |}.

(** The [Add to Cart] button is rendered with
    [disabled={isOutOfStock(product)}] over the products of the catalog:
    the page calls [addToCart] only on a catalog product that is in stock.
    The two other calls are not restricted here. *)
Definition enabled (catalog : list Product) (a : Action) : Prop :=
  match a with
  | AddToCart product => In product catalog /\ isOutOfStock product = false
  | _ => True
  end.

(** ** The arrays of [applyFilters] in a store

    [filtered.sort] sorts the array it is called on in place, so what
    [applyFilters] does to the catalog depends on which array [filtered]
    is.  Arrays live in a store; a variable holds a location. *)

Definition loc : Type := positive.
Abbreviation store := (gmap loc (list Product)).

Module Store.

(** A computation on the store. *)
Definition M (A : Type) : Type := store -> A * store.

Definition ret {A : Type} (a : A) : M A := fun h => (a, h).
Definition bind {A B : Type} (m : M A) (k : A -> M B) : M B :=
  fun h => let '(a, h') := m h in k a h'.

Definition read (r : loc) : M (list Product) :=
  fun h => (default [] (h !! r), h).

(** A new array object. *)
Definition alloc (l : list Product) : M loc :=
  fun h => let r := fresh (dom h) in (r, <[r := l]> h).

(** [[...a]]: a new array with the elements of [a]. *)
Definition spread (a : loc) : M loc :=
  bind (read a) alloc.

(** [a.filter(f)]: a new array, [a] is not written. *)
Definition filter (f : Product -> bool) (a : loc) : M loc :=
  bind (read a) (fun l => alloc (List.filter f l)).

(** [a.sort(comparefn)]: the elements of [a] are rearranged in [a]
    itself, and [a] is returned. *)
Definition sort (comparefn : Product -> Product -> Q) (a : loc) : M loc :=
  fun h => (a, <[a := Js.sort comparefn (default [] (h !! a))]> h).

End Store.

Notation "'let*' x ':=' m 'in' k" := (Store.bind m (fun x => k))
  (at level 10, x name, m at level 100, k at level 200).

(** [applyFilters] on the store: [products] is the location of the
    catalog array, the result is the location handed to
    [setFilteredProducts]. *)
Definition applyFilters_store (products : loc)
    (searchTerm selectedCategory sortOrder : string) : Store.M loc :=
  let* filtered := Store.spread products in
  let* filtered :=
    (if Js.truthy searchTerm
     then Store.filter (matches_search searchTerm) filtered
     else Store.ret filtered) in
  let* filtered :=
    (if Js.truthy selectedCategory
     then Store.filter (matches_category selectedCategory) filtered
     else Store.ret filtered) in
  let* _ :=
    (if String.eqb sortOrder "low-high" then Store.sort low_high filtered
     else if String.eqb sortOrder "high-low" then Store.sort high_low filtered
     else Store.ret filtered) in
  Store.ret filtered.

(** ** The rest of the component: loading, the filter effect, the page *)

Definition setProducts (v : list Product) (st : State) : State :=
  {| products := v; filteredProducts := filteredProducts st; cart := cart st;
     searchTerm := searchTerm st; selectedCategory := selectedCategory st;
     sortOrder := sortOrder st; loading := loading st |}.

Definition setLoading (v : bool) (st : State) : State :=
  {| products := products st; filteredProducts := filteredProducts st; cart := cart st;
     searchTerm := searchTerm st; selectedCategory := selectedCategory st;
     sortOrder := sortOrder st; loading := v |}.

(** The cells as the [useState] calls initialise them. *)
Definition initial : State :=
  {| products := []; filteredProducts := []; cart := [];
     searchTerm := ""; selectedCategory := ""; sortOrder := ""; loading := true |}.

(** [fetchProducts], given how [await fetch(...)] and [await
    response.json()] complete: on a normal completion with [data] the
    catalog is set and loading ends; when either throws, the [catch] block
    logs and ends loading. *)
Definition fetchProducts (response : Js.completion (list Product)) (st : State) : State :=
  match response with
  | Js.Normal data => setLoading false (setProducts data st)
  | Js.Throw _ => setLoading false st
  end.

(** The effect with dependencies [[products, searchTerm, selectedCategory,
    sortOrder]]: after a render in which a criterion differs from the
    render before, [applyFilters] runs.  (A setter called with the value
    the cell already has does not render again.) *)
Definition same_criteria (prev next : State) : bool :=
  String.eqb (searchTerm prev) (searchTerm next)
  && String.eqb (selectedCategory prev) (selectedCategory next)
  && String.eqb (sortOrder prev) (sortOrder next).

Definition filter_effect (prev next : State) : State :=
  if same_criteria prev next then next else applyFilters next.

(** Mounting: the filter effect runs on the first render, over the empty
    catalog; then the fetch completes.  [setProducts] stores a new array,
    so the filter effect runs again; on a failure no dependency changed. *)
Definition mount (response : Js.completion (list Product)) : State :=
  let st := applyFilters initial in
  match response with
  | Js.Normal _ => applyFilters (fetchProducts response st)
  | Js.Throw _ => fetchProducts response st
  end.

Definition getStockStatus (product : Product) : string :=
  if 0 <? count (rating product) then "In stock" else "Out of stock".

(** What the user can do on the loaded page, with the handler each
    control is bound to: the search input, the two selectors, the clear
    button, [Add to Cart] on a product card, and [-], [+], [X] on a cart
    line. *)
Inductive Event : Type :=
| SearchInput (value : string)
| CategorySelect (value : string)
| SortSelect (value : string)
| ClearClick
| AddClick (product : Product)
| MinusClick (item : CartItem)
| PlusClick (item : CartItem)
| RemoveClick (item : CartItem).

Definition react (st : State) (e : Event) : Js.completion State :=
  match e with
  | SearchInput value => Js.Normal (filter_effect st (setSearchTerm value st))
  | CategorySelect value => Js.Normal (filter_effect st (setSelectedCategory value st))
  | SortSelect value => Js.Normal (filter_effect st (setSortOrder value st))
  | ClearClick => Js.Normal (filter_effect st (clearFilters st))
  | AddClick product => Js.Normal (addToCart st product)
  | MinusClick item => updateQuantity st (id item) (quantity item - 1)
  | PlusClick item => updateQuantity st (id item) (quantity item + 1)
  | RemoveClick item => Js.Normal (removeFromCart st (id item))
  end.

(** A handler that throws leaves the cells as they were. *)
Definition step (st : State) (e : Event) : State :=
  match react st e with
  | Js.Normal st' => st'
  | Js.Throw _ => st
  end.

Definition play (st : State) (events : list Event) : State :=
  fold_left step events st.

(** The same, ending at the first handler that throws. *)
Fixpoint play_strict (st : State) (events : list Event) : Js.completion State :=
  match events with
  | [] => Js.Normal st
  | e :: events => Js.bind (react st e) (fun st' => play_strict st' events)
  end.

(** The controls the page renders in a state: a card with an enabled
    button for each product of [filteredProducts] that is not out of
    stock, the three buttons for each line of [cart], an option for each
    category of [getCategories] and for the three sort orders. *)
Definition offered (st : State) (e : Event) : Prop :=
  match e with
  | SearchInput _ => True
  | CategorySelect value => value = "" \/ In value (getCategories st)
  | SortSelect value => value = "" \/ value = "low-high" \/ value = "high-low"
  | ClearClick => True
  | AddClick product => In product (filteredProducts st) /\ isOutOfStock product = false
  | MinusClick item | PlusClick item | RemoveClick item => In item (cart st)
  end.

Fixpoint offered_all (st : State) (events : list Event) : Prop :=
  match events with
  | [] => True
  | e :: events => offered st e /\ offered_all (step st e) events
  end.

(** ** The vocabulary of the properties *)

(** The two filters as one predicate: an empty criterion lets every
    product through. *)
Definition passes (searchTerm selectedCategory : string) (p : Product) : bool :=
  (negb (Js.truthy searchTerm) || matches_search searchTerm p)
  && (negb (Js.truthy selectedCategory) || matches_category selectedCategory p).

Definition price_is (v : Q) (p : Product) : bool := Qeq_bool (price p) v.

(** [fresh_view h0 h r l]: in [h] the location [r], which [h0] does not
    have, holds [l], and every array of [h0] is in [h] as it was. *)
Definition fresh_view (h0 h : store) (r : loc) (l : list Product) : Prop :=
  h0 !! r = None
  /\ h !! r = Some l
  /\ forall r' a, h0 !! r' = Some a -> h !! r' = Some a.

Definition has_id (productId : Z) (item : CartItem) : bool := id item =? productId.

(** The callback of the [cart.map] in [addToCart]. *)
Definition increment (productId : Z) (item : CartItem) : CartItem :=
  if id item =? productId then line item (quantity item + 1) else item.

(** The callback of the [cart.map] in [updateQuantity]. *)
Definition assign (productId newQuantity : Z) (item : CartItem) : CartItem :=
  if id item =? productId then line item newQuantity else item.

Definition unique_lines (c : list CartItem) : Prop :=
  List.NoDup (map (fun item : CartItem => id item) c).

(** The calls whose product id, if they look one up in the catalog, is
    the id of a catalog product. *)
Definition known (st : State) (a : Action) : Prop :=
  match a with
  | UpdateQuantity productId _ => exists p, In p (products st) /\ id p = productId
  | _ => True
  end.

Definition within_stock (item : CartItem) : Prop :=
  1 <= quantity item <= count (rating item).

(** What the calls keep true of a cart over a catalog: one line per
    product, each line a copy of a catalog product, with a quantity from 1
    to its stock. *)
Definition stocked (catalog : list Product) (c : list CartItem) : Prop :=
  unique_lines c
  /\ Forall (fun item : CartItem => In (item_product item) catalog /\ within_stock item) c.

Definition sum_Z (l : list Z) : Z := fold_right Z.add 0 l.

(** [y] is not among the values of [acc]. *)
Definition not_in (acc : list string) (y : string) : bool :=
  negb (existsb (String.eqb y) acc).

(** The list on the page is the view of the catalog under the criteria
    of the state. *)
Definition consistent (st : State) : Prop :=
  filteredProducts st
  = computeView (products st) (searchTerm st) (selectedCategory st) (sortOrder st).

(** Every line of the cart is a copy of a product of the catalog. *)
Definition lines_from_catalog (st : State) : Prop :=
  Forall (fun item : CartItem => In (item_product item) (products st)) (cart st).

(** The cart handler a cart control runs. *)
Definition action_of (e : Event) : option Action :=
  match e with
  | AddClick product => Some (AddToCart product)
  | MinusClick item => Some (UpdateQuantity (id item) (quantity item - 1))
  | PlusClick item => Some (UpdateQuantity (id item) (quantity item + 1))
  | RemoveClick item => Some (RemoveFromCart (id item))
  | _ => None
  end.

(** ** Catalogs for the examples *)

Definition red_shirt : Product :=
  {| id := 1; title := "Red Shirt"; price := (20 # 1)%Q; category := "clothing";
     image := "shirt.png"; rating := {| count := 2 |} |}.

Definition one_shirt_in_cart : State :=
  setCart [line red_shirt 1] (loaded [red_shirt]).

(** An out-of-stock product, for the cases below. *)
Definition sold_out : Product :=
  {| id := 2; title := "Blue Hat"; price := (5 # 1)%Q; category := "clothing";
     image := "hat.png"; rating := {| count := 0 |} |}.

(** Two products with the same id, which a catalog is not to have. *)
Definition twin_large : Product :=
  {| id := 4; title := "Mug"; price := (7 # 2)%Q; category := "kitchen";
     image := "mug.png"; rating := {| count := 5 |} |}.

Definition twin_small : Product :=
  {| id := 4; title := "Mug"; price := (7 # 2)%Q; category := "kitchen";
     image := "mug.png"; rating := {| count := 1 |} |}.

Definition two_shirts : list Product :=
  [ {| id := 3; title := "Green Shirt"; price := (30 # 1)%Q; category := "clothing";
       image := "green.png"; rating := {| count := 4 |} |};
    red_shirt ].

(** ** The scenarios of the specification, evaluated *)

Example scenario_add_three_times :
  map (fun item : CartItem => (id item, quantity item))
      (cart (run (loaded [red_shirt])
                 [AddToCart red_shirt; AddToCart red_shirt; AddToCart red_shirt]))
  = [(1, 2)].
Proof. reflexivity. Qed.

Example scenario_total_items :
  getTotalItems (run (loaded [red_shirt])
                     [AddToCart red_shirt; AddToCart red_shirt; AddToCart red_shirt])
  = 2.
Proof. reflexivity. Qed.

Example scenario_search_shirt :
  computeView [red_shirt] "shirt" "" "" = [red_shirt]
  /\ computeView [red_shirt] "shoe" "" "" = [].
Proof. split; reflexivity. Qed.

Example scenario_update_zero :
  call (addToCart (loaded [red_shirt]) red_shirt) (UpdateQuantity 1 0)
  = Js.Normal (loaded [red_shirt]).
Proof. reflexivity. Qed.

(** ** Facts about the built-ins *)

Lemma truthy_false (s : string) : Js.truthy s = false <-> s = "".
Proof. destruct s; simpl; split; congruence. Qed.

Lemma prefix_app (sub s : string) :
  String.prefix sub s = true <-> exists b, s = (sub ++ b)%string.
Proof.
  revert s. induction sub as [|c sub IH]; intros s.
  - split; [intros _; exists s; reflexivity | intros _; destruct s; reflexivity].
  - destruct s as [|d s]; simpl.
    + split; [discriminate | intros [b Hb]; discriminate].
    + destruct (ascii_dec c d) as [->|Hne].
      * rewrite IH. split; intros [b Hb]; exists b.
        -- now rewrite Hb.
        -- now injection Hb.
      * split; [discriminate | intros [b Hb]; injection Hb; congruence].
Qed.

(** [includes] is substring containment. *)
Lemma includes_spec (s sub : string) :
  Js.includes s sub = true <-> exists a b, s = (a ++ sub ++ b)%string.
Proof.
  induction s as [|c s IH]; cbn [Js.includes].
  - rewrite orb_false_r, prefix_app. split.
    + intros [b Hb]. exists "", b. exact Hb.
    + intros [a [b Hab]]. destruct a; [eauto | discriminate].
  - rewrite orb_true_iff, prefix_app, IH. split.
    + intros [[b Hb] | [a [b Hab]]].
      * exists "", b. exact Hb.
      * exists (String c a), b. cbn [append]. now rewrite Hab.
    + intros [a [b Hab]]. destruct a as [|d a].
      * left. eauto.
      * right. exists a, b. now injection Hab.
Qed.

Lemma includes_empty (s : string) : Js.includes s "" = true.
Proof. apply includes_spec. exists "", s. reflexivity. Qed.

Section Sort.

Context {A : Type} (comparefn : A -> A -> Q).

Lemma insert_perm (x : A) (l : list A) :
  Permutation (Js.insert comparefn x l) (x :: l).
Proof.
  induction l as [|y l IH]; simpl; [reflexivity|].
  destruct (Qle_bool (comparefn x y) 0); [reflexivity|].
  rewrite IH. apply perm_swap.
Qed.

Lemma sort_perm (l : list A) : Permutation (Js.sort comparefn l) l.
Proof.
  induction l as [|x l IH]; simpl; [reflexivity|].
  unfold Js.sort in *. simpl. rewrite insert_perm. now constructor.
Qed.

Lemma sort_In (l : list A) (x : A) : In x (Js.sort comparefn l) <-> In x l.
Proof.
  split; apply Permutation_in; [apply sort_perm | symmetry; apply sort_perm].
Qed.

(** The result is ordered by any transitive relation [R] that the
    comparison function decides. *)
Section Ordered.

Variable R : A -> A -> Prop.
Hypothesis R_trans : forall x y z, R x y -> R y z -> R x z.
Hypothesis le_R : forall x y, Qle_bool (comparefn x y) 0 = true -> R x y.
Hypothesis gt_R : forall x y, Qle_bool (comparefn x y) 0 = false -> R y x.

Lemma insert_sorted (x : A) (l : list A) :
  StronglySorted R l -> StronglySorted R (Js.insert comparefn x l).
Proof.
  induction 1 as [|y l Hl IH Hy]; simpl.
  - constructor; constructor.
  - destruct (Qle_bool (comparefn x y) 0) eqn:E.
    + constructor; [constructor; assumption|].
      constructor; [auto|].
      eapply Forall_impl; [exact Hy|]. intros z Hz. eauto.
    + constructor; [assumption|].
      eapply Permutation_Forall; [symmetry; apply insert_perm|].
      constructor; auto.
Qed.

Lemma sort_sorted (l : list A) : StronglySorted R (Js.sort comparefn l).
Proof.
  induction l as [|x l IH]; [constructor|].
  unfold Js.sort in *. simpl. now apply insert_sorted.
Qed.

End Ordered.

(** Stability: elements that the comparison function does not order
    strictly keep the order they had.  [f] selects such a class. *)
Section Stable.

Variable f : A -> bool.
Hypothesis f_tied :
  forall x y, f x = true -> f y = true -> Qle_bool (comparefn x y) 0 = true.

Lemma insert_stable (x : A) (l : list A) :
  List.filter f (Js.insert comparefn x l) = List.filter f (x :: l).
Proof.
  induction l as [|y l IH]; [reflexivity|]. simpl.
  destruct (Qle_bool (comparefn x y) 0) eqn:E; [reflexivity|].
  simpl in *. rewrite IH.
  destruct (f x) eqn:Fx, (f y) eqn:Fy; try reflexivity.
  rewrite (f_tied x y Fx Fy) in E. discriminate.
Qed.

Lemma sort_stable (l : list A) :
  List.filter f (Js.sort comparefn l) = List.filter f l.
Proof.
  induction l as [|x l IH]; [reflexivity|].
  unfold Js.sort in *. simpl foldr. rewrite insert_stable. simpl.
  now rewrite IH.
Qed.

End Stable.

End Sort.

Lemma existsb_eqb_In (x : string) (s : list string) :
  existsb (String.eqb x) s = true <-> In x s.
Proof.
  rewrite existsb_exists. split.
  - intros [y [Hy E]]. apply String.eqb_eq in E. now subst.
  - intros H. exists x. split; [assumption | apply String.eqb_refl].
Qed.

Lemma Set_add_In (s : list string) (x c : string) :
  In c (Js.Set_add s x) <-> In c s \/ c = x.
Proof.
  unfold Js.Set_add. destruct (existsb (String.eqb x) s) eqn:E.
  - apply existsb_eqb_In in E. split; [tauto | intros [H | ->]; assumption].
  - rewrite in_app_iff. simpl. intuition congruence.
Qed.

Lemma Set_add_NoDup (s : list string) (x : string) :
  List.NoDup s -> List.NoDup (Js.Set_add s x).
Proof.
  intros Hs. unfold Js.Set_add. destruct (existsb (String.eqb x) s) eqn:E; [assumption|].
  assert (Hx : ~ In x s).
  { intros H. apply existsb_eqb_In in H. congruence. }
  clear E. induction Hs as [|y s Hy Hs IH]; simpl.
  - constructor; [intros [] | constructor].
  - constructor.
    + rewrite in_app_iff. simpl. simpl in Hx. intuition congruence.
    + apply IH. simpl in Hx. tauto.
Qed.

Lemma fold_Set_add_In (l s : list string) (c : string) :
  In c (fold_left Js.Set_add l s) <-> In c s \/ In c l.
Proof.
  revert s. induction l as [|x l IH]; intros s; simpl; [tauto|].
  rewrite IH, Set_add_In. intuition congruence.
Qed.

Lemma fold_Set_add_NoDup (l s : list string) :
  List.NoDup s -> List.NoDup (fold_left Js.Set_add l s).
Proof.
  revert s. induction l as [|x l IH]; intros s Hs; simpl; [assumption|].
  apply IH. now apply Set_add_NoDup.
Qed.

(** ** Filter engine: the view *)

Lemma filter_true {A : Type} (l : list A) : List.filter (fun _ => true) l = l.
Proof. induction l; simpl; congruence. Qed.

Lemma filter_filter {A : Type} (f g : A -> bool) (l : list A) :
  List.filter g (List.filter f l) = List.filter (fun x => f x && g x) l.
Proof.
  induction l as [|x l IH]; simpl; [reflexivity|].
  destruct (f x); simpl; [destruct (g x)|]; now rewrite IH.
Qed.

Lemma computeView_unsorted (products : list Product) (searchTerm selectedCategory : string) :
  computeView products searchTerm selectedCategory ""
  = List.filter (passes searchTerm selectedCategory) products.
Proof.
  unfold computeView, passes. simpl.
  destruct (Js.truthy searchTerm), (Js.truthy selectedCategory); simpl.
  - apply filter_filter.
  - apply filter_ext. intros p. now rewrite andb_true_r.
  - reflexivity.
  - symmetry. apply filter_true.
Qed.

Lemma computeView_cases (products : list Product)
    (searchTerm selectedCategory sortOrder : string) :
  let before := computeView products searchTerm selectedCategory "" in
  computeView products searchTerm selectedCategory sortOrder
  = if String.eqb sortOrder "low-high" then Js.sort low_high before
    else if String.eqb sortOrder "high-low" then Js.sort high_low before
    else before.
Proof. reflexivity. Qed.

Lemma passes_spec (searchTerm selectedCategory : string) (p : Product) :
  passes searchTerm selectedCategory p = true <->
  (searchTerm = ""
   \/ exists a b,
        Js.toLowerCase (title p) = (a ++ Js.toLowerCase searchTerm ++ b)%string)
  /\ (selectedCategory = "" \/ category p = selectedCategory).
Proof.
  unfold passes, matches_search, matches_category.
  rewrite andb_true_iff, !orb_true_iff, !negb_true_iff, !truthy_false,
    includes_spec, String.eqb_eq.
  reflexivity.
Qed.

(** C5.  A product is in the view exactly when it is in the catalog, its
    lower-cased title contains the lower-cased search term (or the search
    term is empty) and its category is the selected one (or none is
    selected); this holds for every sort order, so sorting does not change
    membership. *)
Theorem computeView_membership
    (products : list Product) (searchTerm selectedCategory sortOrder : string)
    (p : Product) :
  In p (computeView products searchTerm selectedCategory sortOrder) <->
  In p products
  /\ (searchTerm = ""
      \/ exists a b,
           Js.toLowerCase (title p) = (a ++ Js.toLowerCase searchTerm ++ b)%string)
  /\ (selectedCategory = "" \/ category p = selectedCategory).
Proof.
  rewrite <- passes_spec, <- filter_In, <- computeView_unsorted.
  rewrite (computeView_cases products searchTerm selectedCategory sortOrder).
  cbv zeta.
  destruct (String.eqb sortOrder "low-high"); [apply sort_In|].
  destruct (String.eqb sortOrder "high-low"); [apply sort_In|].
  reflexivity.
Qed.

Lemma low_high_le (a b : Product) :
  Qle_bool (low_high a b) 0 = true <-> (price a <= price b)%Q.
Proof. unfold low_high. rewrite Qle_bool_iff. split; intros H; lra. Qed.

Lemma high_low_le (a b : Product) :
  Qle_bool (high_low a b) 0 = true <-> (price b <= price a)%Q.
Proof. unfold high_low. rewrite Qle_bool_iff. split; intros H; lra. Qed.

Lemma low_high_sorted (l : list Product) :
  StronglySorted (fun a b => (price a <= price b)%Q) (Js.sort low_high l).
Proof.
  apply sort_sorted.
  - intros x y z Hxy Hyz. lra.
  - intros x y H. now apply low_high_le.
  - intros x y H. destruct (Qlt_le_dec (price y) (price x)) as [Hlt | Hle]; [lra|].
    apply low_high_le in Hle. congruence.
Qed.

Lemma high_low_sorted (l : list Product) :
  StronglySorted (fun a b => (price b <= price a)%Q) (Js.sort high_low l).
Proof.
  apply sort_sorted.
  - intros x y z Hxy Hyz. lra.
  - intros x y H. now apply high_low_le.
  - intros x y H. destruct (Qlt_le_dec (price x) (price y)) as [Hlt | Hle]; [lra|].
    apply high_low_le in Hle. congruence.
Qed.

Lemma price_is_tied (v : Q) (a b : Product) :
  price_is v a = true -> price_is v b = true -> (price a == price b)%Q.
Proof.
  unfold price_is. rewrite !Qeq_bool_iff. intros Ha Hb. now rewrite Ha, Hb.
Qed.

(** A stable sort by price has one possible result: two rearrangements
    of a list that are both ordered by price and both keep the order of
    the products of each price are the same list.  So the result of
    [Js.sort] below does not depend on the sorting algorithm. *)
Lemma stable_sorted_unique (R : Product -> Product -> Prop) :
  (forall x y, R x y -> R y x -> (price x == price y)%Q) ->
  forall l1 l2 : list Product,
    Permutation l1 l2 -> StronglySorted R l1 -> StronglySorted R l2 ->
    (forall v, List.filter (price_is v) l1 = List.filter (price_is v) l2) ->
    l1 = l2.
Proof.
  intros HR. induction l1 as [|x l1 IH]; intros l2 Hp H1 H2 Hf.
  - apply Permutation_nil in Hp. now subst.
  - destruct l2 as [|y l2].
    { symmetry in Hp. apply Permutation_nil in Hp. discriminate. }
    apply StronglySorted_inv in H1. destruct H1 as [S1 F1].
    apply StronglySorted_inv in H2. destruct H2 as [S2 F2].
    assert (Hxy : x = y).
    { assert (Hy : In y (x :: l1))
        by (eapply Permutation_in; [symmetry; exact Hp | now left]).
      assert (Hx : In x (y :: l2))
        by (eapply Permutation_in; [exact Hp | now left]).
      destruct Hy as [|Hy]; [assumption|]. destruct Hx as [|Hx]; [now symmetry|].
      rewrite List.Forall_forall in F1, F2.
      pose proof (HR x y (F1 y Hy) (F2 x Hx)) as E.
      assert (Px : price_is (price x) x = true)
        by (apply Qeq_bool_iff; reflexivity).
      assert (Py : price_is (price x) y = true)
        by (apply Qeq_bool_iff; now symmetry).
      specialize (Hf (price x)). cbn [List.filter] in Hf. rewrite Px, Py in Hf.
      now injection Hf. }
    subst y. f_equal. apply IH; auto.
    + now apply Permutation_cons_inv in Hp.
    + intros v. specialize (Hf v). simpl in Hf.
      destruct (price_is v x); [now injection Hf | assumption].
Qed.

(** C6.  With [low-high] the view is non-decreasing by price, with
    [high-low] non-increasing; in both, the products of any one price are
    in the order they have in the unsorted view; and the unsorted view is
    the catalog with the products that fail a filter left out, the others
    in catalog order. *)
Theorem computeView_sort_order
    (products : list Product) (searchTerm selectedCategory : string) :
  let before := computeView products searchTerm selectedCategory "" in
  let ascending := computeView products searchTerm selectedCategory "low-high" in
  let descending := computeView products searchTerm selectedCategory "high-low" in
  StronglySorted (fun a b => (price a <= price b)%Q) ascending
  /\ StronglySorted (fun a b => (price b <= price a)%Q) descending
  /\ Permutation ascending before
  /\ Permutation descending before
  /\ (forall v, List.filter (price_is v) ascending = List.filter (price_is v) before)
  /\ (forall v, List.filter (price_is v) descending = List.filter (price_is v) before)
  /\ before = List.filter (passes searchTerm selectedCategory) products.
Proof.
  intros before ascending descending.
  assert (Ha : ascending = Js.sort low_high before) by reflexivity.
  assert (Hd : descending = Js.sort high_low before) by reflexivity.
  rewrite Ha, Hd. repeat split.
  - apply low_high_sorted.
  - apply high_low_sorted.
  - apply sort_perm.
  - apply sort_perm.
  - intros v. apply sort_stable. intros x y Hx Hy.
    apply low_high_le. pose proof (price_is_tied v x y Hx Hy). lra.
  - intros v. apply sort_stable. intros x y Hx Hy.
    apply high_low_le. pose proof (price_is_tied v x y Hx Hy). lra.
  - apply computeView_unsorted.
Qed.

Lemma sort_low_high_determined (l l' : list Product) :
  Permutation l' l ->
  StronglySorted (fun a b => (price a <= price b)%Q) l' ->
  (forall v, List.filter (price_is v) l' = List.filter (price_is v) l) ->
  l' = Js.sort low_high l.
Proof.
  intros Hp Hs Hf.
  apply (stable_sorted_unique (fun a b => (price a <= price b)%Q)).
  - intros x y Hxy Hyx. lra.
  - rewrite Hp. symmetry. apply sort_perm.
  - exact Hs.
  - apply low_high_sorted.
  - intros v. rewrite Hf. symmetry. apply sort_stable. intros x y Hx Hy.
    apply low_high_le. pose proof (price_is_tied v x y Hx Hy). lra.
Qed.

Lemma sort_high_low_determined (l l' : list Product) :
  Permutation l' l ->
  StronglySorted (fun a b => (price b <= price a)%Q) l' ->
  (forall v, List.filter (price_is v) l' = List.filter (price_is v) l) ->
  l' = Js.sort high_low l.
Proof.
  intros Hp Hs Hf.
  apply (stable_sorted_unique (fun a b => (price b <= price a)%Q)).
  - intros x y Hxy Hyx. lra.
  - rewrite Hp. symmetry. apply sort_perm.
  - exact Hs.
  - apply high_low_sorted.
  - intros v. rewrite Hf. symmetry. apply sort_stable. intros x y Hx Hy.
    apply high_low_le. pose proof (price_is_tied v x y Hx Hy). lra.
Qed.

(** Any sort order other than the two of the selector leaves the view
    unsorted. *)
Lemma computeView_other_order (products : list Product)
    (searchTerm selectedCategory sortOrder : string) :
  sortOrder <> "low-high" -> sortOrder <> "high-low" ->
  computeView products searchTerm selectedCategory sortOrder
  = computeView products searchTerm selectedCategory "".
Proof.
  intros H1 H2. rewrite computeView_cases. cbv zeta.
  apply String.eqb_neq in H1, H2. now rewrite H1, H2.
Qed.

(** C7.  With no search term, no category and no sort order the view is
    the catalog, the same products in the same order; this is the view
    the page shows once [clearFilters] has reset the criteria. *)
Theorem computeView_identity (catalog : list Product) :
  computeView catalog "" "" "" = catalog
  /\ forall st, products st = catalog ->
       filteredProducts (applyFilters (clearFilters st)) = catalog.
Proof.
  split; [reflexivity|]. intros st <-. reflexivity.
Qed.

Lemma computeView_identity_witness :
  computeView two_shirts "" "" "" = two_shirts
  /\ filteredProducts (applyFilters (clearFilters (setSortOrder "high-low" (loaded two_shirts))))
     = two_shirts.
Proof.
  split.
  - apply (computeView_identity two_shirts).
  - apply (computeView_identity two_shirts). reflexivity.
Defined.

(** C8.  The categories offered are the distinct categories of the
    catalog, each once, and no criterion has a part in them: setting the
    three criteria, or recomputing the view, gives the same list. *)
Theorem getCategories_distinct (st : State) :
  List.NoDup (getCategories st)
  /\ (forall c, In c (getCategories st) <-> exists p, In p (products st) /\ category p = c)
  /\ (forall s c o,
        getCategories (applyFilters (setSortOrder o (setSelectedCategory c (setSearchTerm s st))))
        = getCategories st).
Proof.
  unfold getCategories, Js.Set_from. repeat split.
  - apply fold_Set_add_NoDup. constructor.
  - intros H. apply fold_Set_add_In in H. destruct H as [[] | H].
    apply in_map_iff in H. destruct H as [p [E Hp]]. eauto.
  - intros [p [Hp E]]. apply fold_Set_add_In. right.
    apply in_map_iff. eauto.
Qed.

(** ** Filter engine: the arrays *)

Lemma alloc_fresh (l : list Product) (h : store) :
  h !! fst (Store.alloc l h) = None
  /\ snd (Store.alloc l h) = <[fst (Store.alloc l h) := l]> h.
Proof.
  unfold Store.alloc. simpl. split; [|reflexivity].
  apply not_elem_of_dom. apply is_fresh.
Qed.

Lemma alloc_view (h0 h : store) (l : list Product) :
  (forall r' a, h0 !! r' = Some a -> h !! r' = Some a) ->
  fresh_view h0 (snd (Store.alloc l h)) (fst (Store.alloc l h)) l.
Proof.
  intros Hext. destruct (alloc_fresh l h) as [Hnone ->].
  set (r := fst (Store.alloc l h)) in *. repeat split.
  - destruct (h0 !! r) as [a|] eqn:E; [|reflexivity].
    apply Hext in E. congruence.
  - apply lookup_insert_eq.
  - intros r' a Ha. apply Hext in Ha.
    rewrite lookup_insert_ne; [assumption | congruence].
Qed.

Lemma spread_view (h0 : store) (a : loc) (l : list Product) :
  h0 !! a = Some l ->
  fresh_view h0 (snd (Store.spread a h0)) (fst (Store.spread a h0)) l.
Proof.
  intros Ha. unfold Store.spread, Store.bind, Store.read. rewrite Ha. simpl.
  apply (alloc_view h0 h0 l). auto.
Qed.

Lemma filter_view (h0 h : store) (f : Product -> bool) (a : loc) (l : list Product) :
  fresh_view h0 h a l ->
  fresh_view h0 (snd (Store.filter f a h)) (fst (Store.filter f a h)) (List.filter f l).
Proof.
  intros (_ & Ha & Hext). unfold Store.filter, Store.bind, Store.read.
  rewrite Ha. simpl. apply (alloc_view h0 h (List.filter f l)). exact Hext.
Qed.

Lemma sort_view (h0 h : store) (comparefn : Product -> Product -> Q)
    (a : loc) (l : list Product) :
  fresh_view h0 h a l ->
  fst (Store.sort comparefn a h) = a
  /\ fresh_view h0 (snd (Store.sort comparefn a h)) a (Js.sort comparefn l).
Proof.
  intros (Hnone & Ha & Hext). unfold Store.sort. simpl. rewrite Ha. simpl.
  split; [reflexivity|]. repeat split.
  - exact Hnone.
  - apply lookup_insert_eq.
  - intros r' b Hb. rewrite lookup_insert_ne; [auto | congruence].
Qed.

(** The store computation ends with the view of the catalog in a new
    array. *)
Lemma applyFilters_store_view (h : store) (products : loc) (catalog : list Product)
    (searchTerm selectedCategory sortOrder : string) :
  h !! products = Some catalog ->
  fresh_view h
    (snd (applyFilters_store products searchTerm selectedCategory sortOrder h))
    (fst (applyFilters_store products searchTerm selectedCategory sortOrder h))
    (computeView catalog searchTerm selectedCategory sortOrder).
Proof.
  intros Hp. unfold applyFilters_store, computeView, Store.bind.
  pose proof (spread_view h products catalog Hp) as V0.
  destruct (Store.spread products h) as [r0 h0]. simpl in V0.
  assert (V1 : exists r1 h1,
    (if Js.truthy searchTerm
     then Store.filter (matches_search searchTerm) r0
     else Store.ret r0) h0 = (r1, h1)
    /\ fresh_view h h1 r1
         (if Js.truthy searchTerm
          then List.filter (matches_search searchTerm) catalog else catalog)).
  { destruct (Js.truthy searchTerm).
    - pose proof (filter_view h h0 (matches_search searchTerm) r0 catalog V0) as V.
      destruct (Store.filter (matches_search searchTerm) r0 h0) as [r1 h1]. eauto.
    - exists r0, h0. split; [reflexivity | assumption]. }
  destruct V1 as (r1 & h1 & -> & V1).
  set (l1 := if Js.truthy searchTerm
             then List.filter (matches_search searchTerm) catalog else catalog) in *.
  assert (V2 : exists r2 h2,
    (if Js.truthy selectedCategory
     then Store.filter (matches_category selectedCategory) r1
     else Store.ret r1) h1 = (r2, h2)
    /\ fresh_view h h2 r2
         (if Js.truthy selectedCategory
          then List.filter (matches_category selectedCategory) l1 else l1)).
  { destruct (Js.truthy selectedCategory).
    - pose proof (filter_view h h1 (matches_category selectedCategory) r1 l1 V1) as V.
      destruct (Store.filter (matches_category selectedCategory) r1 h1) as [r2 h2]. eauto.
    - exists r1, h1. split; [reflexivity | assumption]. }
  destruct V2 as (r2 & h2 & -> & V2).
  set (l2 := if Js.truthy selectedCategory
             then List.filter (matches_category selectedCategory) l1 else l1) in *.
  destruct (String.eqb sortOrder "low-high").
  { destruct (sort_view h h2 low_high r2 l2 V2) as [_ V].
    destruct (Store.sort low_high r2 h2) as [r3 h3]. exact V. }
  destruct (String.eqb sortOrder "high-low").
  { destruct (sort_view h h2 high_low r2 l2 V2) as [_ V].
    destruct (Store.sort high_low r2 h2) as [r3 h3]. exact V. }
  exact V2.
Qed.

(** Sorting the catalog array itself would have rearranged it: the copy
    is what keeps the catalog as it was. *)
Example sort_writes_its_array (a b : Product) :
  Qle_bool (low_high a b) 0 = false ->
  snd (Store.sort low_high 1%positive {[ 1%positive := [a; b] ]}) !! 1%positive
  = Some [b; a].
Proof.
  intros H. unfold Store.sort. simpl. rewrite lookup_insert_eq, lookup_singleton_eq.
  simpl. unfold Js.sort. simpl. now rewrite H.
Qed.

(** C9.  Computing the view leaves the catalog array, and every other
    array the store had, with the same elements in the same order; the
    view is in an array of its own, for every search term, category and
    sort order. *)
Theorem applyFilters_catalog_unchanged (h : store) (products : loc)
    (catalog : list Product) (searchTerm selectedCategory sortOrder : string) :
  h !! products = Some catalog ->
  let h' := snd (applyFilters_store products searchTerm selectedCategory sortOrder h) in
  let filtered := fst (applyFilters_store products searchTerm selectedCategory sortOrder h) in
  h' !! products = Some catalog
  /\ (forall r a, h !! r = Some a -> h' !! r = Some a)
  /\ filtered <> products
  /\ h' !! filtered = Some (computeView catalog searchTerm selectedCategory sortOrder).
Proof.
  intros Hp h' filtered.
  destruct (applyFilters_store_view h products catalog searchTerm selectedCategory
              sortOrder Hp) as (Hnone & Hview & Hext).
  fold h' filtered in Hnone, Hview, Hext.
  repeat split; auto. congruence.
Qed.

(** ** Cart manager: what each call does *)

Lemma id_increment (productId : Z) (item : CartItem) :
  id (increment productId item) = id item.
Proof. unfold increment. now destruct (id item =? productId). Qed.

Lemma id_assign (productId q : Z) (item : CartItem) :
  id (assign productId q item) = id item.
Proof. unfold assign. now destruct (id item =? productId). Qed.

Lemma find_map_same_id (g : CartItem -> CartItem) (productId : Z) (l : list CartItem) :
  (forall item, id (g item) = id item) ->
  List.find (has_id productId) (map g l) = option_map g (List.find (has_id productId) l).
Proof.
  intros Hg. induction l as [|x l IH]; [reflexivity|]. simpl.
  unfold has_id at 1 3. rewrite Hg. destruct (id x =? productId); [reflexivity | exact IH].
Qed.

Lemma find_id_None (productId : Z) (l : list CartItem) :
  List.find (has_id productId) l = None <->
  forall item, In item l -> id item <> productId.
Proof.
  split.
  - intros H item Hin E. apply (find_none _ _ H) in Hin.
    unfold has_id in Hin. apply Z.eqb_neq in Hin. contradiction.
  - intros H. induction l as [|x l IH]; [reflexivity|]. simpl.
    unfold has_id at 1. destruct (id x =? productId) eqn:E.
    + apply Z.eqb_eq in E. exfalso. apply (H x); [now left | assumption].
    + apply IH. intros item Hin. apply H. now right.
Qed.

Lemma addToCart_products (st : State) (product : Product) :
  products (addToCart st product) = products st.
Proof.
  unfold addToCart. destruct (List.find _ (cart st)) as [e|]; [|reflexivity].
  now destruct (quantity e <? count (rating product)).
Qed.

Lemma updateQuantity_products (st st' : State) (productId newQuantity : Z) :
  updateQuantity st productId newQuantity = Js.Normal st' ->
  products st' = products st.
Proof.
  unfold updateQuantity. destruct (List.find _ (products st)) as [p|]; [|discriminate].
  simpl. destruct (newQuantity <=? 0); [intros [= <-]; reflexivity|].
  destruct (newQuantity <=? count (rating p)); intros [= <-]; reflexivity.
Qed.

Lemma dispatch_products (st : State) (a : Action) :
  products (dispatch st a) = products st.
Proof.
  unfold dispatch. destruct a as [p | pid | pid q]; simpl.
  - apply addToCart_products.
  - reflexivity.
  - destruct (updateQuantity st pid q) as [st'|e] eqn:E; [|reflexivity].
    now apply updateQuantity_products in E.
Qed.

Lemma run_products (actions : list Action) (st : State) :
  products (run st actions) = products st.
Proof.
  revert st. induction actions as [|a actions IH]; intros st; [reflexivity|].
  unfold run in *. simpl. now rewrite IH, dispatch_products.
Qed.

(** The cart after one call, case by case. *)
Lemma addToCart_cart (st : State) (product : Product) :
  cart (addToCart st product) =
  match List.find (has_id (id product)) (cart st) with
  | Some existingItem =>
      if quantity existingItem <? count (rating product)
      then map (increment (id product)) (cart st)
      else cart st
  | None => cart st ++ [line product 1]
  end.
Proof.
  unfold addToCart. change (fun item : CartItem => id item =? id product)
    with (has_id (id product)).
  destruct (List.find _ (cart st)) as [e|]; [|reflexivity].
  now destruct (quantity e <? count (rating product)).
Qed.

Lemma dispatch_cart (st : State) (a : Action) :
  cart (dispatch st a) =
  match a with
  | AddToCart product => cart (addToCart st product)
  | RemoveFromCart productId => List.filter (fun item => negb (has_id productId item)) (cart st)
  | UpdateQuantity productId newQuantity =>
      match List.find (fun p => id p =? productId) (products st) with
      | None => cart st
      | Some product =>
          if newQuantity <=? 0
          then List.filter (fun item => negb (has_id productId item)) (cart st)
          else if newQuantity <=? count (rating product)
               then map (assign productId newQuantity) (cart st)
               else cart st
      end
  end.
Proof.
  unfold dispatch. destruct a as [p | pid | pid q]; simpl; try reflexivity.
  unfold updateQuantity. destruct (List.find _ (products st)) as [p|]; [|reflexivity].
  simpl. destruct (q <=? 0); [reflexivity|].
  now destruct (q <=? count (rating p)).
Qed.

(** ** Cart manager: one line per product *)

Lemma unique_lines_filter (f : CartItem -> bool) (c : list CartItem) :
  unique_lines c -> unique_lines (List.filter f c).
Proof.
  unfold unique_lines. induction c as [|x c IH]; simpl; [auto|].
  intros H. inversion H as [|? ? Hx Hc]; subst.
  destruct (f x); simpl; [|auto].
  constructor; [|auto].
  intros Hin. apply Hx. apply in_map_iff in Hin. destruct Hin as [y [E Hy]].
  apply filter_In in Hy. apply in_map_iff. exists y. tauto.
Qed.

Lemma unique_lines_map (g : CartItem -> CartItem) (c : list CartItem) :
  (forall item, id (g item) = id item) ->
  unique_lines c -> unique_lines (map g c).
Proof.
  intros Hg. unfold unique_lines. intros H. rewrite map_map.
  rewrite (map_ext _ (fun item : CartItem => id item)); [exact H|].
  intros item. apply Hg.
Qed.

Lemma unique_lines_snoc (c : list CartItem) (x : CartItem) :
  (forall item, In item c -> id item <> id x) ->
  unique_lines c -> unique_lines (c ++ [x]).
Proof.
  unfold unique_lines. intros Hx. induction c as [|y c IH]; simpl; intros H.
  - constructor; [intros [] | constructor].
  - inversion H as [|? ? Hy Hc]; subst. constructor.
    + rewrite map_app, in_app_iff. simpl. intros [Hin | [E | []]]; [auto|].
      apply (Hx y); [now left | congruence].
    + apply IH; [|assumption]. intros item Hin. apply Hx. now right.
Qed.

Lemma unique_lines_same (c : list CartItem) (x y : CartItem) :
  unique_lines c -> In x c -> In y c -> id x = id y -> x = y.
Proof.
  unfold unique_lines. induction c as [|z c IH]; simpl; [tauto|].
  intros H Hx Hy E. inversion H as [|? ? Hz Hc]; subst.
  destruct Hx as [-> | Hx], Hy as [-> | Hy]; auto.
  - exfalso. apply Hz. rewrite E. apply in_map_iff. eauto.
  - exfalso. apply Hz. rewrite <- E. apply in_map_iff. eauto.
Qed.

Lemma dispatch_unique_lines (st : State) (a : Action) :
  unique_lines (cart st) -> unique_lines (cart (dispatch st a)).
Proof.
  intros H. rewrite dispatch_cart. destruct a as [p | pid | pid q].
  - rewrite addToCart_cart.
    destruct (List.find (has_id (id p)) (cart st)) as [e|] eqn:E.
    + destruct (quantity e <? count (rating p)); [|assumption].
      apply unique_lines_map; [apply id_increment | assumption].
    + apply unique_lines_snoc; [|assumption]. simpl.
      now apply find_id_None.
  - now apply unique_lines_filter.
  - destruct (List.find _ (products st)) as [p|]; [|assumption].
    destruct (q <=? 0); [now apply unique_lines_filter|].
    destruct (q <=? count (rating p)); [|assumption].
    apply unique_lines_map; [apply id_assign | assumption].
Qed.

Lemma run_unique_lines (actions : list Action) (st : State) :
  unique_lines (cart st) -> unique_lines (cart (run st actions)).
Proof.
  revert st. induction actions as [|a actions IH]; intros st H; [assumption|].
  unfold run in *. simpl. apply IH. now apply dispatch_unique_lines.
Qed.

(** C10.  From the empty cart, whatever calls are made, no two lines of
    the cart have the same product id. *)
Theorem cart_one_line_per_product (st : State) (actions : list Action) :
  cart st = [] ->
  List.NoDup (map (fun item : CartItem => id item) (cart (run st actions))).
Proof.
  intros H. apply run_unique_lines. rewrite H. constructor.
Qed.

Lemma cart_one_line_per_product_witness :
  cart (loaded [red_shirt]) = []
  /\ List.NoDup
       (map (fun item : CartItem => id item)
            (cart (run (loaded [red_shirt])
                       [AddToCart red_shirt; UpdateQuantity 1 2; AddToCart red_shirt;
                        RemoveFromCart 1; AddToCart red_shirt]))).
Proof.
  split; [reflexivity|].
  apply (cart_one_line_per_product (loaded [red_shirt])). reflexivity.
Defined.

(** ** Cart manager: the contracts of the calls *)

Lemma find_id_Some (productId : Z) (l : list Product) (p : Product) :
  In p l -> id p = productId ->
  exists product, List.find (fun p => id p =? productId) l = Some product.
Proof.
  intros Hin E. destruct (List.find _ l) as [product|] eqn:F; [eauto|].
  apply (find_none _ _ F) in Hin. simpl in Hin. apply Z.eqb_neq in Hin. contradiction.
Qed.

Lemma filter_others_map (g : CartItem -> CartItem) (productId : Z) (l : list CartItem) :
  (forall item, id (g item) = id item) ->
  (forall item, has_id productId item = false -> g item = item) ->
  List.filter (fun item => negb (has_id productId item)) (map g l)
  = List.filter (fun item => negb (has_id productId item)) l.
Proof.
  intros Hid Hother. induction l as [|x l IH]; [reflexivity|]. simpl.
  assert (E : has_id productId (g x) = has_id productId x)
    by (unfold has_id; now rewrite Hid).
  rewrite E. destruct (has_id productId x) eqn:Hx; simpl; [exact IH|].
  now rewrite IH, Hother.
Qed.

(** C2, as stated, fails: called on a product with no stock and no line,
    [addToCart] does not leave the cart alone, it appends a line of
    quantity 1. *)
Lemma addToCart_out_of_stock_adds_line :
  count (rating sold_out) = 0
  /\ cart (loaded [sold_out]) = []
  /\ cart (addToCart (loaded [sold_out]) sold_out) = [line sold_out 1]
  /\ addToCart (loaded [sold_out]) sold_out <> loaded [sold_out].
Proof. repeat split. discriminate. Qed.

(** C2, amended.  With no line for the product and the product in stock,
    [addToCart] appends a line for the product, of quantity 1.  With a
    line [existingItem] found for the product and the quantities of the
    lines of the product safe integers: if [quantity + 1 <= stockCount]
    the line is the same with its quantity exactly one higher, every line
    of another product is untouched and nothing else in the state changes.
    With a line found and [quantity + 1 > stockCount] the state is
    unchanged. *)
Theorem addToCart_contract (st : State) (product : Product) :
  (List.find (has_id (id product)) (cart st) = None ->
   1 <= count (rating product) ->
   addToCart st product = setCart (cart st ++ [line product 1]) st
   /\ exists created,
        cart (addToCart st product) = cart st ++ [created]
        /\ item_product created = product
        /\ quantity created = 1)
  /\ (forall existingItem,
        List.find (has_id (id product)) (cart st) = Some existingItem ->
        quantity existingItem + 1 <= count (rating product) ->
        (forall item, In item (cart st) -> id item = id product ->
                      Js.isSafeInteger (quantity item)) ->
        addToCart st product = setCart (map (increment (id product)) (cart st)) st
        /\ List.find (has_id (id product)) (cart (addToCart st product))
           = Some (line existingItem (quantity existingItem + 1))
        /\ (exists updated,
              List.find (has_id (id product)) (cart (addToCart st product))
              = Some updated
              /\ item_product updated = item_product existingItem
              /\ quantity updated = quantity existingItem + 1)
        /\ List.filter (fun item => negb (has_id (id product) item))
             (cart (addToCart st product))
           = List.filter (fun item => negb (has_id (id product) item)) (cart st)
        /\ length (cart (addToCart st product)) = length (cart st)
        /\ forall i item,
             nth_error (cart st) i = Some item ->
             exists item',
               nth_error (cart (addToCart st product)) i = Some item'
               /\ item_product item' = item_product item
               /\ quantity item'
                  = if id item =? id product then quantity item + 1 else quantity item)
  /\ (forall existingItem,
        List.find (has_id (id product)) (cart st) = Some existingItem ->
        ~ quantity existingItem + 1 <= count (rating product) ->
        addToCart st product = st).
Proof.
  split; [|split].
  - intros Hnone _.
    assert (E : addToCart st product = setCart (cart st ++ [line product 1]) st).
    { unfold addToCart.
      change (fun item : CartItem => id item =? id product) with (has_id (id product)).
      now rewrite Hnone. }
    split; [exact E|]. exists (line product 1). rewrite E. auto.
  - intros existingItem Hfind Hle _.
    assert (E : addToCart st product
                = setCart (map (increment (id product)) (cart st)) st).
    { unfold addToCart.
      change (fun item : CartItem => id item =? id product) with (has_id (id product)).
      rewrite Hfind.
      destruct (Z.ltb_spec (quantity existingItem) (count (rating product)));
        [reflexivity | lia]. }
    assert (F : List.find (has_id (id product)) (cart (addToCart st product))
                = Some (line existingItem (quantity existingItem + 1))).
    { rewrite E. simpl. rewrite find_map_same_id by (apply id_increment).
      rewrite Hfind. simpl. unfold increment.
      apply find_some in Hfind. destruct Hfind as [_ Hid].
      unfold has_id in Hid. now rewrite Hid. }
    split; [exact E|]. split; [exact F|]. split; [|split; [|split]].
    + exists (line existingItem (quantity existingItem + 1)). auto.
    + rewrite E. simpl. apply filter_others_map; [apply id_increment|].
      intros item Hid. unfold increment. unfold has_id in Hid. now rewrite Hid.
    + rewrite E. simpl. apply length_map.
    + intros i item Hi. rewrite E. simpl. rewrite nth_error_map, Hi. simpl.
      exists (increment (id product) item). split; [reflexivity|].
      unfold increment. destruct (id item =? id product); auto.
  - intros existingItem Hfind Hfull. unfold addToCart.
    change (fun item : CartItem => id item =? id product) with (has_id (id product)).
    rewrite Hfind.
    destruct (Z.ltb_spec (quantity existingItem) (count (rating product)));
      [lia | reflexivity].
Qed.

Lemma safe_small (z : Z) : -1000 <= z <= 1000 -> Js.isSafeInteger z.
Proof.
  unfold Js.isSafeInteger, Js.MAX_SAFE_INTEGER. intros H.
  assert (1000 < 2 ^ 53) by reflexivity. lia.
Qed.

Lemma addToCart_contract_witness :
  (exists created,
     cart (addToCart (loaded [red_shirt]) red_shirt) = [] ++ [created]
     /\ item_product created = red_shirt
     /\ quantity created = 1)
  /\ (exists updated,
        List.find (has_id (id red_shirt)) (cart (addToCart one_shirt_in_cart red_shirt))
        = Some updated
        /\ item_product updated = red_shirt
        /\ quantity updated = 1 + 1)
  /\ addToCart (setCart [line red_shirt 2] (loaded [red_shirt])) red_shirt
     = setCart [line red_shirt 2] (loaded [red_shirt]).
Proof.
  split; [|split].
  - apply (addToCart_contract (loaded [red_shirt]) red_shirt);
      [reflexivity | simpl; lia].
  - destruct (addToCart_contract one_shirt_in_cart red_shirt) as (_ & Hinc & _).
    destruct (Hinc (line red_shirt 1)) as (_ & _ & Hupdated & _).
    + reflexivity.
    + simpl. lia.
    + intros item [<- | []] _. apply safe_small. simpl. lia.
    + exact Hupdated.
  - apply (addToCart_contract (setCart [line red_shirt 2] (loaded [red_shirt]))
             red_shirt) with (existingItem := line red_shirt 2);
      [reflexivity | simpl; lia].
Defined.

(** C3, as stated, fails: with a product id that no product of the
    catalog has, [updateQuantity] is not a silent no-op, it throws. *)
Lemma updateQuantity_unknown_id_throws :
  (forall p, In p (products (loaded [red_shirt])) -> id p <> 7)
  /\ updateQuantity (loaded [red_shirt]) 7 1 = Js.Throw Js.TypeError.
Proof.
  split; [|reflexivity]. intros p [<- | []]. discriminate.
Qed.

(** C3, amended.  [addToCart] and [removeFromCart] return on every
    input, and [updateQuantity] returns whenever its product id is the id
    of a product of the catalog. *)
Theorem call_returns (st : State) (a : Action) :
  known st a -> exists st', call st a = Js.Normal st'.
Proof.
  destruct a as [p | pid | pid q]; simpl; [eauto | eauto |].
  intros [p [Hin E]]. unfold updateQuantity.
  destruct (find_id_Some pid (products st) p Hin E) as [product ->].
  simpl. destruct (q <=? 0); [eauto|].
  destruct (q <=? count (rating product)); eauto.
Qed.

Lemma call_returns_witness :
  known (loaded [red_shirt]) (UpdateQuantity 1 5)
  /\ exists st', call (loaded [red_shirt]) (UpdateQuantity 1 5) = Js.Normal st'.
Proof.
  assert (H : known (loaded [red_shirt]) (UpdateQuantity 1 5)).
  { exists red_shirt. split; [left; reflexivity | reflexivity]. }
  split; [exact H|].
  exact (call_returns (loaded [red_shirt]) (UpdateQuantity 1 5) H).
Defined.

(** C4.  [product] is what [updateQuantity] finds in the catalog for the
    id.  A new quantity of 0 or less is [removeFromCart]; one from 1 to
    the stock of [product] becomes the quantity of the line of the id,
    every other line and cell staying as it is; a larger one changes
    nothing. *)
Theorem updateQuantity_contract (st : State) (productId newQuantity : Z)
    (product : Product) :
  List.find (fun p => id p =? productId) (products st) = Some product ->
  (newQuantity <= 0 ->
   updateQuantity st productId newQuantity = Js.Normal (removeFromCart st productId))
  /\ (0 < newQuantity <= count (rating product) ->
      updateQuantity st productId newQuantity
      = Js.Normal (setCart (map (assign productId newQuantity) (cart st)) st)
      /\ length (map (assign productId newQuantity) (cart st)) = length (cart st)
      /\ (forall i item, nth_error (cart st) i = Some item ->
            nth_error (map (assign productId newQuantity) (cart st)) i
            = Some (if id item =? productId then line item newQuantity else item))
      /\ exists st',
           updateQuantity st productId newQuantity = Js.Normal st'
           /\ products st' = products st
           /\ filteredProducts st' = filteredProducts st
           /\ length (cart st') = length (cart st)
           /\ forall i item,
                nth_error (cart st) i = Some item ->
                exists item',
                  nth_error (cart st') i = Some item'
                  /\ item_product item' = item_product item
                  /\ quantity item'
                     = if id item =? productId then newQuantity else quantity item)
  /\ (0 < newQuantity -> count (rating product) < newQuantity ->
      updateQuantity st productId newQuantity = Js.Normal st).
Proof.
  intros Hfind. unfold updateQuantity. rewrite Hfind. simpl.
  change (fun item : CartItem =>
            if id item =? productId then line item newQuantity else item)
    with (assign productId newQuantity).
  split; [|split].
  - intros H. destruct (Z.leb_spec newQuantity 0); [reflexivity | lia].
  - intros H.
    destruct (Z.leb_spec newQuantity 0); [lia|].
    destruct (Z.leb_spec newQuantity (count (rating product))); [|lia].
    split; [reflexivity|]. split; [apply length_map|]. split.
    + intros i item Hi. rewrite nth_error_map, Hi. reflexivity.
    + eexists. split; [reflexivity|]. simpl.
      split; [reflexivity|]. split; [reflexivity|]. split; [apply length_map|].
      intros i item Hi. rewrite nth_error_map, Hi. simpl.
      exists (assign productId newQuantity item). split; [reflexivity|].
      unfold assign. destruct (id item =? productId); auto.
  - intros Hpos Hbig. destruct (Z.leb_spec newQuantity 0); [lia|].
    destruct (Z.leb_spec newQuantity (count (rating product))); [lia | reflexivity].
Qed.

Lemma updateQuantity_contract_witness :
  updateQuantity one_shirt_in_cart 1 0 = Js.Normal (removeFromCart one_shirt_in_cart 1)
  /\ (exists st' item',
        updateQuantity one_shirt_in_cart 1 2 = Js.Normal st'
        /\ nth_error (cart st') 0 = Some item'
        /\ item_product item' = red_shirt
        /\ quantity item' = 2)
  /\ updateQuantity one_shirt_in_cart 1 3 = Js.Normal one_shirt_in_cart.
Proof.
  assert (H : List.find (fun p => id p =? 1) (products one_shirt_in_cart) = Some red_shirt)
    by reflexivity.
  split; [|split].
  - apply (updateQuantity_contract one_shirt_in_cart 1 0 red_shirt H). lia.
  - destruct (updateQuantity_contract one_shirt_in_cart 1 2 red_shirt H) as (_ & Hset & _).
    destruct Hset as (_ & _ & _ & st' & Hst' & _ & _ & _ & Hlines); [simpl; lia|].
    destruct (Hlines 0%nat (line red_shirt 1) eq_refl) as (item' & Hn & Hp & Hq).
    exists st', item'. auto.
  - apply (updateQuantity_contract one_shirt_in_cart 1 3 red_shirt H); simpl; lia.
Defined.

(** ** Cart manager: the stock ceiling *)

(** C1, as stated, fails: the catalog has one product, with stock 0;
    after one [addToCart] from the empty cart the cart has a line of
    quantity 1 for it, above its stock. *)
Lemma stock_ceiling_broken_by_out_of_stock :
  List.NoDup (map id [sold_out])
  /\ Forall (fun p => 0 <= count (rating p)) [sold_out]
  /\ cart (run (loaded [sold_out]) [AddToCart sold_out]) = [line sold_out 1]
  /\ ~ Forall within_stock (cart (run (loaded [sold_out]) [AddToCart sold_out])).
Proof.
  split; [|split; [|split]].
  - constructor; [intros [] | constructor].
  - constructor; [simpl; lia | constructor].
  - reflexivity.
  - intros H. inversion H as [|? ? [_ Hq] _]; subst. simpl in Hq. lia.
Qed.

Lemma same_id_same_product (catalog : list Product) (p q : Product) :
  List.NoDup (map id catalog) -> In p catalog -> In q catalog -> id p = id q -> p = q.
Proof.
  induction catalog as [|z c IH]; simpl; [tauto|].
  intros H Hp Hq E. inversion H as [|? ? Hz Hc]; subst.
  destruct Hp as [-> | Hp], Hq as [-> | Hq]; auto.
  - exfalso. apply Hz. rewrite E. apply in_map_iff. eauto.
  - exfalso. apply Hz. rewrite <- E. apply in_map_iff. eauto.
Qed.

(** In a catalog with one product per id, [find] by the id of a catalog
    product gives that product. *)
Lemma find_in_catalog (catalog : list Product) (p : Product) :
  List.NoDup (map id catalog) -> In p catalog ->
  List.find (fun q => id q =? id p) catalog = Some p.
Proof.
  intros Hids Hin.
  destruct (find_id_Some (id p) catalog p Hin eq_refl) as [q Hq].
  rewrite Hq. f_equal. apply find_some in Hq. destruct Hq as [Hq E].
  apply Z.eqb_eq in E. now apply (same_id_same_product catalog).
Qed.

(** One product per id is needed: with two catalog products of one id,
    [updateQuantity] validates against the stock of the first and writes
    the line of the second. *)
Example repeated_id_breaks_ceiling :
  cart (run (loaded [twin_large; twin_small]) [AddToCart twin_small; UpdateQuantity 4 5])
  = [line twin_small 5]
  /\ count (rating twin_small) = 1.
Proof. split; reflexivity. Qed.

Section StockCeiling.

Variable catalog : list Product.
Hypothesis unique_ids : List.NoDup (map id catalog).
Hypothesis stock_nonneg : Forall (fun p => 0 <= count (rating p)) catalog.

Lemma in_stock_positive (p : Product) :
  In p catalog -> isOutOfStock p = false -> 1 <= count (rating p).
Proof.
  intros Hin Hout. unfold isOutOfStock in Hout. apply Z.eqb_neq in Hout.
  rewrite List.Forall_forall in stock_nonneg. apply stock_nonneg in Hin. lia.
Qed.

Lemma addToCart_stocked (st : State) (p : Product) :
  products st = catalog -> In p catalog -> isOutOfStock p = false ->
  stocked catalog (cart st) -> stocked catalog (cart (addToCart st p)).
Proof.
  intros Hcat Hin Hout [Huniq Hall].
  split; [apply (dispatch_unique_lines st (AddToCart p) Huniq)|].
  rewrite addToCart_cart.
  destruct (List.find (has_id (id p)) (cart st)) as [e|] eqn:E.
  - destruct (Z.ltb_spec (quantity e) (count (rating p))) as [Hlt|]; [|assumption].
    apply find_some in E. destruct E as [He Hid].
    unfold has_id in Hid. apply Z.eqb_eq in Hid.
    rewrite List.Forall_forall in Hall. apply List.Forall_forall.
    intros item' Hin'. apply in_map_iff in Hin'. destruct Hin' as [item [<- Hitem]].
    destruct (Hall item Hitem) as [Hc Hw]. unfold increment.
    destruct (Z.eqb_spec (id item) (id p)) as [Heq|]; [|auto].
    assert (item = e) by (apply (unique_lines_same (cart st)); auto; congruence).
    subst item.
    assert (item_product e = p) by (apply (same_id_same_product catalog); auto).
    split; [exact Hc|]. unfold within_stock in *. simpl. rewrite H. lia.
  - apply Forall_app. split; [assumption|]. constructor; [|constructor].
    split; [exact Hin|]. unfold within_stock. simpl.
    pose proof (in_stock_positive p Hin Hout). lia.
Qed.

Lemma dispatch_stocked (st : State) (a : Action) :
  products st = catalog -> enabled catalog a ->
  stocked catalog (cart st) -> stocked catalog (cart (dispatch st a)).
Proof.
  intros Hcat Hen Hst. destruct a as [p | pid | pid q].
  - destruct Hen as [Hin Hout]. now apply addToCart_stocked.
  - destruct Hst as [Huniq Hall].
    split; [apply (dispatch_unique_lines st (RemoveFromCart pid) Huniq)|].
    rewrite dispatch_cart. rewrite List.Forall_forall in Hall. apply List.Forall_forall.
    intros item Hitem. apply filter_In in Hitem. apply Hall. tauto.
  - pose proof Hst as [Huniq Hall].
    split; [apply (dispatch_unique_lines st (UpdateQuantity pid q) Huniq)|].
    rewrite dispatch_cart.
    destruct (List.find (fun p => id p =? pid) (products st)) as [p|] eqn:E;
      [|assumption].
    rewrite List.Forall_forall in Hall.
    destruct (Z.leb_spec q 0) as [|Hpos].
    { apply List.Forall_forall. intros item Hitem. apply filter_In in Hitem.
      apply Hall. tauto. }
    destruct (Z.leb_spec q (count (rating p))) as [Hle|]; [|now apply List.Forall_forall].
    apply find_some in E. destruct E as [Hp Hid]. apply Z.eqb_eq in Hid.
    rewrite Hcat in Hp.
    apply List.Forall_forall. intros item' Hin'.
    apply in_map_iff in Hin'. destruct Hin' as [item [<- Hitem]].
    destruct (Hall item Hitem) as [Hc Hw]. unfold assign.
    destruct (Z.eqb_spec (id item) pid) as [Heq|]; [|auto].
    assert (item_product item = p)
      by (apply (same_id_same_product catalog); auto; congruence).
    split; [exact Hc|]. unfold within_stock. simpl. rewrite H. lia.
Qed.

Lemma run_stocked (actions : list Action) (st : State) :
  products st = catalog -> Forall (enabled catalog) actions ->
  stocked catalog (cart st) -> stocked catalog (cart (run st actions)).
Proof.
  revert st. induction actions as [|a actions IH]; intros st Hcat Hen Hst;
    [assumption|].
  apply Forall_cons in Hen as [Ha Hrest]. unfold run in *. simpl.
  apply IH; [now rewrite dispatch_products | assumption |].
  now apply dispatch_stocked.
Qed.

End StockCeiling.

(** C1, amended.  The catalog has one product per id and no negative
    stock.  From the empty cart, after any calls in which [addToCart] is
    given catalog products that are in stock (the ones whose button is
    enabled), every line of the cart has a quantity from 1 to the stock
    of its product. *)
Theorem cart_within_stock (st : State) (actions : list Action) :
  cart st = [] ->
  List.NoDup (map id (products st)) ->
  Forall (fun p => 0 <= count (rating p)) (products st) ->
  Forall (enabled (products st)) actions ->
  Forall within_stock (cart (run st actions)).
Proof.
  intros Hempty Hids Hstock Hen.
  assert (H : stocked (products st) (cart (run st actions))).
  { apply run_stocked; auto. rewrite Hempty. split; constructor. }
  destruct H as [_ H]. eapply Forall_impl; [exact H|]. intros item [_ Hw]. exact Hw.
Qed.

Lemma cart_within_stock_witness :
  Forall within_stock
    (cart (run (loaded [red_shirt; sold_out])
               [AddToCart red_shirt; UpdateQuantity 1 2; AddToCart red_shirt;
                UpdateQuantity 2 1; UpdateQuantity 1 3; UpdateQuantity 9 1])).
Proof.
  apply (cart_within_stock (loaded [red_shirt; sold_out])).
  - reflexivity.
  - simpl. constructor; [simpl; intros [H | []]; discriminate|].
    constructor; [intros [] | constructor].
  - repeat constructor; simpl; lia.
  - repeat constructor; simpl; auto.
Defined.

Lemma applyFilters_catalog_unchanged_witness :
  snd (applyFilters_store 1%positive "shirt" "clothing" "low-high"
         {[ 1%positive := two_shirts ]}) !! 1%positive
  = Some two_shirts.
Proof.
  assert (H : ({[ 1%positive := two_shirts ]} : store) !! 1%positive = Some two_shirts)
    by apply lookup_singleton_eq.
  exact (proj1 (applyFilters_catalog_unchanged {[ 1%positive := two_shirts ]} 1%positive
                  two_shirts "shirt" "clothing" "low-high" H)).
Defined.

Example view_of_two_shirts :
  computeView two_shirts "shirt" "clothing" "low-high" = rev two_shirts.
Proof. reflexivity. Qed.

(** ** More on the cart manager *)

Lemma setCart_same (st : State) : setCart (cart st) st = st.
Proof. now destruct st. Qed.

Lemma line_same (item : CartItem) : line item (quantity item) = item.
Proof. now destruct item. Qed.

Lemma filter_unchanged_iff {A : Type} (f : A -> bool) (l : list A) :
  List.filter f l = l <-> forall x, In x l -> f x = true.
Proof.
  split.
  - intros E x Hx. rewrite <- E in Hx. apply filter_In in Hx. tauto.
  - induction l as [|y l IH]; intros H; [reflexivity|]. simpl.
    rewrite (H y) by now left. f_equal. apply IH. intros x Hx. apply H. now right.
Qed.

Lemma has_id_false (productId : Z) (item : CartItem) :
  negb (has_id productId item) = true <-> id item <> productId.
Proof. unfold has_id. rewrite negb_true_iff. apply Z.eqb_neq. Qed.

(** X1.  After [removeFromCart] the cart has the lines of the other
    products and no line of the given id; the cart is the same as before
    exactly when it had no line of that id. *)
Theorem removeFromCart_lines (st : State) (productId : Z) :
  (forall item, In item (cart (removeFromCart st productId))
                <-> In item (cart st) /\ id item <> productId)
  /\ List.find (has_id productId) (cart (removeFromCart st productId)) = None
  /\ (cart (removeFromCart st productId) = cart st
      <-> forall item, In item (cart st) -> id item <> productId).
Proof.
  unfold removeFromCart. simpl.
  change (fun item : CartItem => negb (id item =? productId))
    with (fun item : CartItem => negb (has_id productId item)).
  split; [|split].
  - intros item. rewrite filter_In, has_id_false. reflexivity.
  - apply find_id_None. intros item Hin. apply filter_In in Hin.
    now apply has_id_false.
  - rewrite filter_unchanged_iff. split; intros H item Hin.
    + apply has_id_false. auto.
    + apply has_id_false. auto.
Qed.

(** X2.  Adding a product that has no line and then removing it gives the
    state back. *)
Theorem add_then_remove (st : State) (product : Product) :
  List.find (has_id (id product)) (cart st) = None ->
  removeFromCart (addToCart st product) (id product) = st.
Proof.
  intros Hnone. rewrite <- (setCart_same st) at 2.
  unfold removeFromCart. rewrite addToCart_cart, Hnone.
  assert (E : List.filter (fun item : CartItem => negb (id item =? id product))
                (cart st ++ [line product 1]) = cart st).
  { rewrite List.filter_app. simpl. rewrite Z.eqb_refl. simpl. rewrite app_nil_r.
    apply filter_unchanged_iff. intros item Hin.
    apply (has_id_false (id product) item).
    now apply (proj1 (find_id_None (id product) (cart st)) Hnone). }
  rewrite E. unfold addToCart.
  change (fun item : CartItem => id item =? id product) with (has_id (id product)).
  rewrite Hnone. reflexivity.
Qed.

Lemma add_then_remove_witness :
  removeFromCart (addToCart one_shirt_in_cart sold_out) (id sold_out) = one_shirt_in_cart.
Proof.
  apply (add_then_remove one_shirt_in_cart sold_out). reflexivity.
Defined.

(** X3.  Removals can be made in any order, and removing twice is
    removing once. *)
Theorem removeFromCart_commutes (st : State) (a b : Z) :
  removeFromCart (removeFromCart st a) b = removeFromCart (removeFromCart st b) a
  /\ removeFromCart (removeFromCart st a) a = removeFromCart st a.
Proof.
  unfold removeFromCart, setCart. simpl. split; f_equal.
  - rewrite !filter_filter. apply filter_ext. intros item. apply andb_comm.
  - rewrite filter_filter. apply filter_ext. intros item. apply andb_diag.
Qed.

Lemma map_unique_line (g : CartItem -> CartItem) (c : list CartItem) (e : CartItem) :
  unique_lines c -> In e c ->
  (forall item, In item c -> id item <> id e -> g item = item) ->
  forall g', (forall item, In item c -> id item <> id e -> g' item = item) ->
  g e = g' e -> map g c = map g' c.
Proof.
  intros Hu He Hg g' Hg' E. apply map_ext_in. intros item Hin.
  destruct (Z.eq_dec (id item) (id e)) as [Hid|Hid].
  - assert (item = e) by (apply (unique_lines_same c); auto). now subst.
  - now rewrite Hg, Hg'.
Qed.

(** X4.  On a cart with one line per product, the [+] button of a line
    does what [Add to Cart] does on the card of the same catalog product:
    both raise the quantity by one below the stock, both do nothing at the
    stock. *)
Theorem plus_button_is_add (st : State) (e : CartItem) (product : Product) :
  unique_lines (cart st) ->
  In e (cart st) ->
  id e = id product ->
  List.find (fun p => id p =? id product) (products st) = Some product ->
  0 <= quantity e ->
  react st (PlusClick e) = react st (AddClick product).
Proof.
  intros Hu He Hid Hfind Hq. simpl. unfold updateQuantity, addToCart.
  rewrite Hid, Hfind. simpl.
  assert (Hf : List.find (fun item : CartItem => id item =? id product) (cart st) = Some e).
  { destruct (List.find _ (cart st)) as [e'|] eqn:F.
    - f_equal. apply find_some in F. destruct F as [Hin E]. apply Z.eqb_eq in E.
      apply (unique_lines_same (cart st)); auto. congruence.
    - apply (find_none _ _ F) in He. simpl in He. apply Z.eqb_neq in He. contradiction. }
  rewrite Hf.
  destruct (Z.leb_spec (quantity e + 1) 0); [lia|].
  destruct (Z.leb_spec (quantity e + 1) (count (rating product))),
           (Z.ltb_spec (quantity e) (count (rating product))); try lia; [|reflexivity].
  do 2 f_equal.
  apply (map_unique_line _ (cart st) e Hu He).
  - intros item _ Hne. rewrite <- Hid. destruct (Z.eqb_spec (id item) (id e)); congruence.
  - intros item _ Hne. rewrite <- Hid. destruct (Z.eqb_spec (id item) (id e)); congruence.
  - rewrite <- Hid, Z.eqb_refl. reflexivity.
Qed.

Lemma plus_button_is_add_witness :
  react one_shirt_in_cart (PlusClick (line red_shirt 1))
  = react one_shirt_in_cart (AddClick red_shirt).
Proof.
  apply (plus_button_is_add one_shirt_in_cart (line red_shirt 1) red_shirt).
  - constructor; [intros [] | constructor].
  - left. reflexivity.
  - reflexivity.
  - reflexivity.
  - simpl. lia.
Defined.

Lemma assign_assign (productId q1 q2 : Z) (item : CartItem) :
  assign productId q2 (assign productId q1 item) = assign productId q2 item.
Proof.
  unfold assign. destruct (id item =? productId) eqn:E; simpl; rewrite E; reflexivity.
Qed.

(** X5.  Of two quantities set in a row for one product, both from 1 to
    the stock, the second one stands: the state is the one that setting
    the second alone gives. *)
Theorem updateQuantity_last_wins (st : State) (productId q1 q2 : Z) (product : Product) :
  List.find (fun p => id p =? productId) (products st) = Some product ->
  0 < q1 <= count (rating product) ->
  0 < q2 <= count (rating product) ->
  Js.bind (updateQuantity st productId q1) (fun st' => updateQuantity st' productId q2)
  = updateQuantity st productId q2.
Proof.
  intros Hfind H1 H2. unfold updateQuantity at 1. rewrite Hfind. simpl.
  destruct (Z.leb_spec q1 0); [lia|].
  destruct (Z.leb_spec q1 (count (rating product))); [|lia].
  simpl. unfold updateQuantity. simpl. rewrite Hfind. simpl.
  destruct (Z.leb_spec q2 0); [lia|].
  destruct (Z.leb_spec q2 (count (rating product))); [|lia].
  unfold setCart. simpl. do 2 f_equal.
  rewrite map_map. apply map_ext. intros item. apply (assign_assign productId q1 q2).
Qed.

Lemma updateQuantity_last_wins_witness :
  Js.bind (updateQuantity one_shirt_in_cart 1 2) (fun st' => updateQuantity st' 1 1)
  = updateQuantity one_shirt_in_cart 1 1.
Proof.
  apply (updateQuantity_last_wins one_shirt_in_cart 1 2 1 red_shirt);
    [reflexivity | simpl; lia | simpl; lia].
Defined.

(** X6.  On a cart with one line per product, [-] on a line of quantity
    2 or more and then [+] on the line as it is then shown gives the state
    back, when the quantity was within the stock and is a safe integer
    (so that the difference and the sum are exact). *)
Theorem minus_then_plus (st : State) (e : CartItem) (product : Product) :
  unique_lines (cart st) ->
  In e (cart st) ->
  List.find (fun p => id p =? id e) (products st) = Some product ->
  1 < quantity e <= count (rating product) ->
  Js.isSafeInteger (quantity e) ->
  step (step st (MinusClick e)) (PlusClick (line e (quantity e - 1))) = st.
Proof.
  intros Hu He Hfind Hq _. unfold step at 2. simpl. unfold updateQuantity at 1.
  rewrite Hfind. simpl.
  destruct (Z.leb_spec (quantity e - 1) 0); [lia|].
  destruct (Z.leb_spec (quantity e - 1) (count (rating product))); [|lia].
  unfold step. simpl. unfold updateQuantity. simpl. rewrite Hfind. simpl.
  destruct (Z.leb_spec (quantity e - 1 + 1) 0); [lia|].
  destruct (Z.leb_spec (quantity e - 1 + 1) (count (rating product))); [|lia].
  match goal with |- setCart ?c (setCart _ st) = st =>
    assert (E : c = cart st); [|rewrite E; now destruct st] end.
  rewrite map_map. transitivity (map (fun item : CartItem => item) (cart st));
    [|apply map_id].
  apply (map_unique_line _ (cart st) e Hu He).
  - intros item _ Hne. destruct (Z.eqb_spec (id item) (id e)); [congruence|].
    destruct (Z.eqb_spec (id item) (id e)); congruence.
  - reflexivity.
  - rewrite Z.eqb_refl. simpl. rewrite Z.eqb_refl.
    replace (quantity e - 1 + 1) with (quantity e) by lia. apply line_same.
Qed.

Lemma minus_then_plus_witness :
  step (step (setCart [line red_shirt 2] (loaded [red_shirt])) (MinusClick (line red_shirt 2)))
       (PlusClick (line (line red_shirt 2) (2 - 1)))
  = setCart [line red_shirt 2] (loaded [red_shirt]).
Proof.
  apply (minus_then_plus (setCart [line red_shirt 2] (loaded [red_shirt]))
           (line red_shirt 2) red_shirt).
  - constructor; [intros [] | constructor].
  - left. reflexivity.
  - reflexivity.
  - simpl. lia.
  - apply safe_small. simpl. lia.
Defined.

(** ** The number of items *)

Lemma fold_quantity (c : list CartItem) (a : Z) :
  fold_left (fun sum (item : CartItem) => sum + quantity item) c a
  = a + sum_Z (map quantity c).
Proof.
  revert a. induction c as [|x c IH]; intros a; simpl; [lia|]. rewrite IH. lia.
Qed.

Lemma getTotalItems_sum (st : State) :
  getTotalItems st = sum_Z (map quantity (cart st)).
Proof. unfold getTotalItems. rewrite fold_quantity. lia. Qed.

Lemma sum_Z_app (l1 l2 : list Z) : sum_Z (l1 ++ l2) = sum_Z l1 + sum_Z l2.
Proof. induction l1 as [|x l1 IH]; simpl; [reflexivity|]. rewrite IH. lia. Qed.

Lemma sum_increment (productId : Z) (c : list CartItem) :
  unique_lines c ->
  sum_Z (map quantity (map (increment productId) c))
  = sum_Z (map quantity c)
    + match List.find (has_id productId) c with Some _ => 1 | None => 0 end.
Proof.
  unfold unique_lines. induction c as [|x c IH]; intros Hu; simpl; [reflexivity|].
  inversion Hu as [|? ? Hx Hc]; subst. rewrite (IH Hc).
  unfold increment at 1, has_id at 2. destruct (Z.eqb_spec (id x) productId) as [E|E]; simpl.
  - assert (F : List.find (has_id productId) c = None).
    { apply find_id_None. intros item Hin Hid. apply Hx. apply in_map_iff.
      exists item. split; [congruence | assumption]. }
    rewrite F. lia.
  - lia.
Qed.

(** X7.  On a cart with one line per product, no negative quantity and
    a number of items that stays a safe integer when raised by one (so
    that every sum is exact), an [addToCart] that changes the cart raises
    the number of items by exactly one. *)
Theorem addToCart_one_item (st : State) (product : Product) :
  unique_lines (cart st) ->
  Forall (fun item : CartItem => 0 <= quantity item) (cart st) ->
  Js.isSafeInteger (sum_Z (map quantity (cart st)) + 1) ->
  cart (addToCart st product) <> cart st ->
  getTotalItems (addToCart st product) = getTotalItems st + 1.
Proof.
  intros Hu _ _ Hch. rewrite !getTotalItems_sum. rewrite addToCart_cart in *.
  destruct (List.find (has_id (id product)) (cart st)) as [e|] eqn:F.
  - destruct (quantity e <? count (rating product)); [|contradiction].
    rewrite sum_increment by assumption. now rewrite F.
  - rewrite map_app, sum_Z_app. simpl. lia.
Qed.

Lemma addToCart_one_item_witness :
  getTotalItems (addToCart one_shirt_in_cart red_shirt) = getTotalItems one_shirt_in_cart + 1.
Proof.
  apply (addToCart_one_item one_shirt_in_cart red_shirt).
  - constructor; [intros [] | constructor].
  - constructor; [simpl; lia | constructor].
  - apply safe_small. simpl. lia.
  - discriminate.
Defined.

(** X8.  When every line has a quantity from 1 to its stock and the
    stocks of the products in the cart add up to a safe integer (so that
    the sum of the quantities is exact), the number of items is at least
    the number of lines and at most that sum of stocks, and it is 0 only
    for the empty cart. *)
Theorem getTotalItems_bounds (st : State) :
  Forall within_stock (cart st) ->
  Js.isSafeInteger (sum_Z (map (fun item : CartItem => count (rating item)) (cart st))) ->
  Z.of_nat (length (cart st)) <= getTotalItems st
  /\ getTotalItems st <= sum_Z (map (fun item : CartItem => count (rating item)) (cart st))
  /\ (getTotalItems st = 0 <-> cart st = []).
Proof.
  rewrite getTotalItems_sum. intros H _.
  assert (B : Z.of_nat (length (cart st)) <= sum_Z (map quantity (cart st))
              /\ sum_Z (map quantity (cart st))
                 <= sum_Z (map (fun item : CartItem => count (rating item)) (cart st))).
  { induction H as [|x c [Hlo Hhi] Hc IH]; simpl length; simpl map; simpl sum_Z; lia. }
  destruct B as [B1 B2]. split; [exact B1|]. split; [exact B2|]. split.
  - intros E. destruct (cart st) as [|x c]; [reflexivity|]. simpl length in B1. lia.
  - intros ->. reflexivity.
Qed.

Lemma getTotalItems_bounds_witness :
  Z.of_nat (length (cart one_shirt_in_cart)) <= getTotalItems one_shirt_in_cart
  /\ getTotalItems one_shirt_in_cart
     <= sum_Z (map (fun item : CartItem => count (rating item)) (cart one_shirt_in_cart))
  /\ (getTotalItems one_shirt_in_cart = 0 <-> cart one_shirt_in_cart = []).
Proof.
  apply (getTotalItems_bounds one_shirt_in_cart).
  - constructor; [unfold within_stock; simpl; lia | constructor].
  - apply safe_small. simpl. lia.
Defined.

(** X9.  On a cart with one line per product, no negative quantity and
    a number of items that is a safe integer (so that every sum is exact),
    the [X] button of a line lowers the number of items by the quantity of
    that line. *)
Theorem remove_line_items (st : State) (e : CartItem) :
  Forall (fun item : CartItem => 0 <= quantity item) (cart st) ->
  Js.isSafeInteger (sum_Z (map quantity (cart st))) ->
  unique_lines (cart st) ->
  In e (cart st) ->
  getTotalItems (removeFromCart st (id e)) = getTotalItems st - quantity e.
Proof.
  intros _ _.
  rewrite !getTotalItems_sum. unfold removeFromCart. simpl. unfold unique_lines.
  induction (cart st) as [|x c IH]; intros Hu He; [destruct He|].
  inversion Hu as [|? ? Hx Hc]; subst. simpl.
  destruct He as [-> | He].
  - rewrite Z.eqb_refl. simpl.
    assert (E : List.filter (fun item : CartItem => negb (id item =? id e)) c = c).
    { apply filter_unchanged_iff. intros item Hin. apply (has_id_false (id e) item).
      intros Hid. apply Hx. apply in_map_iff. exists item. split; [assumption | assumption]. }
    rewrite E. lia.
  - destruct (Z.eqb_spec (id x) (id e)) as [E|E]; simpl.
    + exfalso. apply Hx. rewrite E. apply in_map_iff. exists e. split; [reflexivity | assumption].
    + rewrite (IH Hc He). lia.
Qed.

Lemma remove_line_items_witness :
  getTotalItems (removeFromCart one_shirt_in_cart (id (line red_shirt 1)))
  = getTotalItems one_shirt_in_cart - quantity (line red_shirt 1).
Proof.
  apply (remove_line_items one_shirt_in_cart (line red_shirt 1)).
  - constructor; [simpl; lia | constructor].
  - apply safe_small. simpl. lia.
  - constructor; [intros [] | constructor].
  - left. reflexivity.
Defined.

(** X10.  For a product whose stock is not negative, the status shown on
    the card is [Out of stock] exactly when the button is disabled. *)
Theorem stock_status_agrees (product : Product) :
  0 <= count (rating product) ->
  (getStockStatus product = "Out of stock" <-> isOutOfStock product = true)
  /\ (getStockStatus product = "In stock" <-> isOutOfStock product = false).
Proof.
  intros H. unfold getStockStatus, isOutOfStock.
  destruct (Z.ltb_spec 0 (count (rating product))),
           (Z.eqb_spec (count (rating product)) 0); try lia;
    repeat split; intros; congruence.
Qed.

Lemma stock_status_agrees_witness :
  getStockStatus sold_out = "Out of stock" <-> isOutOfStock sold_out = true.
Proof.
  apply (stock_status_agrees sold_out). simpl. lia.
Defined.

(** For a negative stock the two differ: the card says [Out of stock]
    and the button is enabled. *)
Example stock_status_negative :
  let product := {| id := 5; title := ""; price := 0%Q; category := ""; image := "";
                    rating := {| count := -1 |} |} in
  getStockStatus product = "Out of stock" /\ isOutOfStock product = false.
Proof. split; reflexivity. Qed.

(** ** More on the view *)

Lemma computeView_sorted_or_not (products : list Product)
    (searchTerm selectedCategory sortOrder : string) :
  Permutation (computeView products searchTerm selectedCategory sortOrder)
    (List.filter (passes searchTerm selectedCategory) products).
Proof.
  rewrite computeView_cases. cbv zeta. rewrite computeView_unsorted.
  destruct (String.eqb sortOrder "low-high"); [apply sort_perm|].
  destruct (String.eqb sortOrder "high-low"); [apply sort_perm | reflexivity].
Qed.

Lemma computeView_In (products : list Product)
    (searchTerm selectedCategory sortOrder : string) (p : Product) :
  In p (computeView products searchTerm selectedCategory sortOrder) <->
  In p products /\ passes searchTerm selectedCategory p = true.
Proof.
  rewrite <- filter_In. split; apply Permutation_in;
    [|symmetry]; apply computeView_sorted_or_not.
Qed.

Lemma NoDup_map_filter {A B : Type} (g : A -> B) (f : A -> bool) (l : list A) :
  List.NoDup (map g l) -> List.NoDup (map g (List.filter f l)).
Proof.
  induction l as [|x l IH]; simpl; intros H; [assumption|].
  inversion H as [|? ? Hx Hl]; subst. destruct (f x); simpl; [|auto].
  constructor; [|auto]. intros Hin. apply Hx.
  apply in_map_iff in Hin. destruct Hin as [y [E Hy]]. apply filter_In in Hy.
  apply in_map_iff. exists y. tauto.
Qed.

(** X11.  The cards are keyed by product id: when no two products of the
    catalog have the same id, no two products of the view have, and the
    view has at most as many products as the catalog. *)
Theorem computeView_unique_ids (products : list Product)
    (searchTerm selectedCategory sortOrder : string) :
  List.NoDup (map id products) ->
  List.NoDup (map id (computeView products searchTerm selectedCategory sortOrder))
  /\ (length (computeView products searchTerm selectedCategory sortOrder)
      <= length products)%nat.
Proof.
  intros H.
  pose proof (computeView_sorted_or_not products searchTerm selectedCategory sortOrder) as P.
  split.
  - eapply Permutation_NoDup; [symmetry; apply Permutation_map; exact P|].
    now apply NoDup_map_filter.
  - rewrite (Permutation_length P). apply List.filter_length_le.
Qed.

Lemma computeView_unique_ids_witness :
  List.NoDup (map id (computeView two_shirts "shirt" "" "high-low")).
Proof.
  apply (computeView_unique_ids two_shirts "shirt" "" "high-low").
  constructor; [simpl; intros [H | []]; discriminate|].
  constructor; [intros [] | constructor].
Defined.

Lemma insert_head {A : Type} (comparefn : A -> A -> Q) (x : A) (l : list A) :
  Forall (fun y => Qle_bool (comparefn x y) 0 = true) l ->
  Js.insert comparefn x l = x :: l.
Proof.
  intros H. destruct l as [|y l]; [reflexivity|]. simpl.
  apply Forall_cons in H as [-> _]. reflexivity.
Qed.

(** A list already in the order of the comparison function is left as it
    is. *)
Lemma sort_sorted_same {A : Type} (comparefn : A -> A -> Q) (l : list A) :
  StronglySorted (fun x y => Qle_bool (comparefn x y) 0 = true) l ->
  Js.sort comparefn l = l.
Proof.
  induction 1 as [|x l Hl IH Hx]; [reflexivity|].
  unfold Js.sort in *. simpl. rewrite IH. now apply insert_head.
Qed.

Lemma StronglySorted_weaken {A : Type} (R R' : A -> A -> Prop) (l : list A) :
  (forall x y, R x y -> R' x y) -> StronglySorted R l -> StronglySorted R' l.
Proof.
  intros HR. induction 1 as [|x l Hl IH Hx]; constructor; [assumption|].
  eapply Forall_impl; [exact Hx|]. intros y. apply HR.
Qed.

Lemma sort_low_high_again (l : list Product) :
  Js.sort low_high (Js.sort low_high l) = Js.sort low_high l.
Proof.
  apply sort_sorted_same. eapply StronglySorted_weaken; [|apply low_high_sorted].
  intros a b H. now apply low_high_le.
Qed.

Lemma sort_high_low_again (l : list Product) :
  Js.sort high_low (Js.sort high_low l) = Js.sort high_low l.
Proof.
  apply sort_sorted_same. eapply StronglySorted_weaken; [|apply high_low_sorted].
  intros a b H. now apply high_low_le.
Qed.

Lemma filter_all_pass {A : Type} (f : A -> bool) (l l' : list A) :
  (forall x, In x l' -> In x (List.filter f l)) -> List.filter f l' = l'.
Proof.
  intros H. apply filter_unchanged_iff. intros x Hx. apply H in Hx.
  apply filter_In in Hx. tauto.
Qed.

(** X12.  Filtering and sorting a view again with the same criteria
    changes nothing. *)
Theorem computeView_idempotent (products : list Product)
    (searchTerm selectedCategory sortOrder : string) :
  computeView (computeView products searchTerm selectedCategory sortOrder)
    searchTerm selectedCategory sortOrder
  = computeView products searchTerm selectedCategory sortOrder.
Proof.
  rewrite (computeView_cases (computeView _ _ _ _)). cbv zeta.
  rewrite (computeView_unsorted (computeView _ _ _ _)).
  rewrite (filter_all_pass (passes searchTerm selectedCategory) products)
    by (intros x Hx; apply filter_In; now apply computeView_In in Hx).
  rewrite (computeView_cases products). cbv zeta.
  destruct (String.eqb sortOrder "low-high"); [apply sort_low_high_again|].
  destruct (String.eqb sortOrder "high-low"); [apply sort_high_low_again | reflexivity].
Qed.

(** X13.  The search does not tell upper from lower case in the search
    term: two terms with the same lower-case form give the same view. *)
Theorem search_ignores_case (products : list Product)
    (term1 term2 selectedCategory sortOrder : string) :
  Js.toLowerCase term1 = Js.toLowerCase term2 ->
  computeView products term1 selectedCategory sortOrder
  = computeView products term2 selectedCategory sortOrder.
Proof.
  intros E. unfold computeView, matches_search. rewrite E.
  assert (T : Js.truthy term1 = Js.truthy term2).
  { destruct term1, term2; simpl in *; congruence. }
  now rewrite T.
Qed.

Lemma search_ignores_case_witness :
  computeView two_shirts "SHIRT" "" "" = computeView two_shirts "shirt" "" "".
Proof.
  apply (search_ignores_case two_shirts "SHIRT" "shirt" "" ""). reflexivity.
Defined.

(** X14.  The page says [No products found] (the view is empty) exactly
    when no product of the catalog passes both filters; the sort order has
    no part in it. *)
Theorem computeView_empty (products : list Product)
    (searchTerm selectedCategory sortOrder : string) :
  length (computeView products searchTerm selectedCategory sortOrder) = 0%nat
  <-> forall p, In p products -> passes searchTerm selectedCategory p = false.
Proof.
  rewrite length_zero_iff_nil. split.
  - intros E p Hp. destruct (passes searchTerm selectedCategory p) eqn:Pp; [|reflexivity].
    assert (H : In p (computeView products searchTerm selectedCategory sortOrder))
      by (apply computeView_In; auto).
    rewrite E in H. destruct H.
  - intros H. destruct (computeView products searchTerm selectedCategory sortOrder)
      as [|p l] eqn:E; [reflexivity|].
    assert (Hp : In p (computeView products searchTerm selectedCategory sortOrder))
      by (rewrite E; now left).
    apply computeView_In in Hp. destruct Hp as [Hin Hpass].
    rewrite (H p Hin) in Hpass. discriminate.
Qed.

(** ** More on the categories *)

Lemma getCategories_In (st : State) (c : string) :
  In c (getCategories st) <-> exists p, In p (products st) /\ category p = c.
Proof.
  unfold getCategories, Js.Set_from. rewrite fold_Set_add_In, in_map_iff.
  split.
  - intros [[] | [p [E Hp]]]. eauto.
  - intros [p [Hp E]]. right. eauto.
Qed.

(** X15.  With no search term, selecting a category that the selector
    offers never gives an empty view; and a non-empty category that no
    product of the catalog has gives an empty view, whatever the search
    term. *)
Theorem category_option_view (st : State) (c sortOrder : string) :
  (In c (getCategories st) -> computeView (products st) "" c sortOrder <> [])
  /\ (c <> "" -> ~ In c (getCategories st) ->
      forall searchTerm, computeView (products st) searchTerm c sortOrder = []).
Proof.
  split.
  - intros Hc E. apply getCategories_In in Hc. destruct Hc as [p [Hp Hcat]].
    assert (H : In p (computeView (products st) "" c sortOrder)).
    { apply computeView_In. split; [assumption|]. unfold passes, matches_category.
      simpl. rewrite Hcat, String.eqb_refl. apply orb_true_r. }
    rewrite E in H. destruct H.
  - intros Hne Hnot searchTerm. apply length_zero_iff_nil.
    destruct (computeView (products st) searchTerm c sortOrder) as [|p l] eqn:E;
      [reflexivity|].
    exfalso. apply Hnot. apply getCategories_In. exists p.
    assert (Hp : In p (computeView (products st) searchTerm c sortOrder))
      by (rewrite E; now left).
    apply computeView_In in Hp. destruct Hp as [Hin Hpass]. split; [assumption|].
    unfold passes in Hpass. apply andb_true_iff in Hpass. destruct Hpass as [_ Hcat].
    apply orb_true_iff in Hcat. destruct Hcat as [Hcat | Hcat].
    + apply negb_true_iff, truthy_false in Hcat. contradiction.
    + now apply String.eqb_eq in Hcat.
Qed.

Lemma category_option_view_witness :
  computeView (products (loaded two_shirts)) "" "clothing" "low-high" <> []
  /\ computeView (products (loaded two_shirts)) "shirt" "kitchen" "low-high" = [].
Proof.
  destruct (category_option_view (loaded two_shirts) "clothing" "low-high") as [H1 _].
  destruct (category_option_view (loaded two_shirts) "kitchen" "low-high") as [_ H2].
  split.
  - apply H1. left. reflexivity.
  - apply H2; [discriminate|]. intros [H | []]. discriminate.
Defined.

Lemma fold_Set_add_acc (l acc : list string) :
  fold_left Js.Set_add l acc = acc ++ List.filter (not_in acc) (Js.Set_from l).
Proof.
  unfold Js.Set_from. revert acc. induction l as [|x l IH]; intros acc.
  - simpl. now rewrite app_nil_r.
  - change (fold_left Js.Set_add (x :: l) acc)
      with (fold_left Js.Set_add l (Js.Set_add acc x)).
    change (fold_left Js.Set_add (x :: l) []) with (fold_left Js.Set_add l [x]).
    rewrite (IH [x]), (IH (Js.Set_add acc x)).
    set (G := fold_left Js.Set_add l []).
    cbn [app List.filter]. unfold Js.Set_add.
    destruct (existsb (String.eqb x) acc) eqn:E.
    + assert (N : not_in acc x = false) by (unfold not_in; now rewrite E).
      rewrite N. f_equal. rewrite filter_filter. apply filter_ext. intros y.
      unfold not_in. simpl. rewrite orb_false_r.
      destruct (String.eqb_spec y x) as [->|]; simpl; [now rewrite E | reflexivity].
    + assert (N : not_in acc x = true) by (unfold not_in; now rewrite E).
      rewrite N, <- app_assoc. simpl. do 2 f_equal. rewrite filter_filter.
      apply filter_ext. intros y. unfold not_in. rewrite existsb_app. simpl.
      rewrite orb_false_r, negb_orb. apply andb_comm.
Qed.

(** X16.  The selector lists the categories in the order in which they
    first appear in the catalog: the category of the first product comes
    first, then the categories of the other products, that one left out. *)
Theorem getCategories_first_appearance (st : State) (p : Product) (rest : list Product) :
  getCategories (setProducts (p :: rest) st)
  = category p
    :: List.filter (fun c => negb (String.eqb c (category p)))
         (getCategories (setProducts rest st)).
Proof.
  unfold getCategories. cbn [products setProducts map].
  change (Js.Set_from (category p :: map category rest))
    with (fold_left Js.Set_add (map category rest) [category p]).
  rewrite fold_Set_add_acc. cbn [app]. f_equal.
  apply filter_ext. intros c. unfold not_in. simpl. now rewrite orb_false_r.
Qed.

(** ** The page as a whole *)

Lemma step_cart_event (st : State) (e : Event) (a : Action) :
  action_of e = Some a -> react st e = call st a /\ step st e = dispatch st a.
Proof.
  unfold step, dispatch. destruct e; simpl; intros [= <-]; auto.
Qed.

Lemma step_filter_event (st : State) (e : Event) :
  action_of e = None ->
  exists next,
    react st e = Js.Normal (filter_effect st next)
    /\ products next = products st
    /\ filteredProducts next = filteredProducts st
    /\ cart next = cart st
    /\ loading next = loading st.
Proof.
  destruct e; simpl; intros [=]; eexists; split; try reflexivity; auto.
Qed.

Lemma filter_effect_fields (prev next : State) :
  products (filter_effect prev next) = products next
  /\ cart (filter_effect prev next) = cart next
  /\ loading (filter_effect prev next) = loading next.
Proof. unfold filter_effect. now destruct (same_criteria prev next). Qed.

Lemma filter_effect_consistent (prev next : State) :
  consistent prev ->
  products next = products prev ->
  filteredProducts next = filteredProducts prev ->
  consistent (filter_effect prev next).
Proof.
  intros Hc Hp Hf. unfold filter_effect.
  destruct (same_criteria prev next) eqn:E; [|reflexivity].
  unfold same_criteria in E. apply andb_true_iff in E. destruct E as [E E3].
  apply andb_true_iff in E. destruct E as [E1 E2].
  apply String.eqb_eq in E1, E2, E3.
  unfold consistent in *. now rewrite Hf, Hp, <- E1, <- E2, <- E3.
Qed.

Lemma dispatch_fields (st : State) (a : Action) :
  filteredProducts (dispatch st a) = filteredProducts st
  /\ searchTerm (dispatch st a) = searchTerm st
  /\ selectedCategory (dispatch st a) = selectedCategory st
  /\ sortOrder (dispatch st a) = sortOrder st
  /\ loading (dispatch st a) = loading st.
Proof.
  unfold dispatch. destruct a as [p | pid | pid q]; simpl.
  - unfold addToCart. destruct (List.find _ (cart st)) as [e|]; [|now simpl].
    now destruct (quantity e <? count (rating p)).
  - now simpl.
  - unfold updateQuantity. destruct (List.find _ (products st)) as [p|]; simpl; [|auto].
    destruct (q <=? 0); [now simpl|].
    now destruct (q <=? count (rating p)).
Qed.

Lemma step_consistent (st : State) (e : Event) :
  consistent st -> consistent (step st e).
Proof.
  intros Hc. destruct (action_of e) as [a|] eqn:A.
  - destruct (step_cart_event st e a A) as [_ ->].
    destruct (dispatch_fields st a) as (Hf & H1 & H2 & H3 & _).
    unfold consistent. now rewrite Hf, H1, H2, H3, dispatch_products.
  - destruct (step_filter_event st e A) as (next & Hr & Hp & Hf & _).
    unfold step. rewrite Hr. now apply filter_effect_consistent.
Qed.

Lemma step_products (st : State) (e : Event) :
  products (step st e) = products st /\ loading (step st e) = loading st.
Proof.
  destruct (action_of e) as [a|] eqn:A.
  - destruct (step_cart_event st e a A) as [_ ->].
    split; [apply dispatch_products | apply dispatch_fields].
  - destruct (step_filter_event st e A) as (next & Hr & Hp & _ & _ & Hl).
    unfold step. rewrite Hr.
    destruct (filter_effect_fields st next) as (-> & _ & ->). auto.
Qed.

Lemma mount_consistent (response : Js.completion (list Product)) :
  consistent (mount response).
Proof. destruct response; reflexivity. Qed.

Lemma play_consistent (events : list Event) (st : State) :
  consistent st -> consistent (play st events).
Proof.
  revert st. induction events as [|e events IH]; intros st H; [assumption|].
  unfold play in *. simpl. apply IH. now apply step_consistent.
Qed.

Lemma play_products (events : list Event) (st : State) :
  products (play st events) = products st /\ loading (play st events) = loading st.
Proof.
  revert st. induction events as [|e events IH]; intros st; [auto|].
  unfold play in *. simpl. destruct (IH (step st e)) as [-> ->]. apply step_products.
Qed.

(** X17.  Whatever the fetch gave and whatever is done on the page
    afterwards, the list on the page is the view of the catalog under the
    criteria the controls show: the filter effect never lags behind. *)
Theorem page_shows_the_view (response : Js.completion (list Product))
    (events : list Event) :
  filteredProducts (play (mount response) events)
  = computeView (products (play (mount response) events))
      (searchTerm (play (mount response) events))
      (selectedCategory (play (mount response) events))
      (sortOrder (play (mount response) events)).
Proof. apply play_consistent, mount_consistent. Qed.

(** X18.  The catalog is what the fetch delivered, or empty when the
    fetch failed, and stays so: nothing done on the page changes it, and
    loading has ended. *)
Theorem catalog_fixed_after_load (response : Js.completion (list Product))
    (events : list Event) :
  products (play (mount response) events)
  = match response with Js.Normal data => data | Js.Throw _ => [] end
  /\ loading (play (mount response) events) = false.
Proof.
  destruct (play_products events (mount response)) as [-> ->].
  destruct response; auto.
Qed.

Lemma offered_add_in_catalog (st : State) (product : Product) :
  consistent st -> In product (filteredProducts st) -> In product (products st).
Proof.
  unfold consistent. intros -> H. now apply computeView_In in H.
Qed.

Lemma play_offered (Inv : State -> Prop) :
  (forall st e, Inv st -> offered st e -> Inv (step st e)) ->
  forall events st, Inv st -> offered_all st events -> Inv (play st events).
Proof.
  intros Hstep. induction events as [|e events IH]; intros st Hinv Hoff; [assumption|].
  destruct Hoff as [He Hrest]. unfold play in *. simpl. apply IH; auto.
Qed.

Lemma dispatch_lines_from_catalog (st : State) (a : Action) :
  (forall p, a = AddToCart p -> In p (products st)) ->
  lines_from_catalog st -> lines_from_catalog (dispatch st a).
Proof.
  unfold lines_from_catalog. intros Ha H.
  rewrite dispatch_products, dispatch_cart.
  rewrite List.Forall_forall in H.
  assert (Hmap : forall g : CartItem -> CartItem,
             (forall item, item_product (g item) = item_product item) ->
             Forall (fun item : CartItem => In (item_product item) (products st))
               (map g (cart st))).
  { intros g Hg. apply List.Forall_forall. intros item' Hin.
    apply in_map_iff in Hin. destruct Hin as [item [<- Hin]]. rewrite Hg. auto. }
  assert (Hfilter : forall f,
             Forall (fun item : CartItem => In (item_product item) (products st))
               (List.filter f (cart st))).
  { intros f. apply List.Forall_forall. intros item Hin. apply filter_In in Hin.
    apply H. tauto. }
  destruct a as [p | pid | pid q].
  - rewrite addToCart_cart. destruct (List.find _ (cart st)) as [e|].
    + destruct (quantity e <? count (rating p)); [|now apply List.Forall_forall].
      apply Hmap. intros item. unfold increment. now destruct (id item =? id p).
    + apply Forall_app. split; [now apply List.Forall_forall|].
      constructor; [|constructor]. simpl. now apply Ha.
  - apply Hfilter.
  - destruct (List.find _ (products st)) as [p|]; [|now apply List.Forall_forall].
    destruct (q <=? 0); [apply Hfilter|].
    destruct (q <=? count (rating p)); [|now apply List.Forall_forall].
    apply Hmap. intros item. unfold assign. now destruct (id item =? pid).
Qed.

Lemma call_total_on_line (st : State) (item : CartItem) (q : Z) :
  lines_from_catalog st -> In item (cart st) ->
  exists st', updateQuantity st (id item) q = Js.Normal st'.
Proof.
  intros Hl Hin. unfold lines_from_catalog in Hl. rewrite List.Forall_forall in Hl.
  destruct (find_id_Some (id item) (products st) (item_product item) (Hl item Hin) eq_refl)
    as [product Hfind].
  unfold updateQuantity. rewrite Hfind. simpl.
  destruct (q <=? 0); [eauto|].
  destruct (q <=? count (rating product)); eauto.
Qed.

Lemma offered_step (st : State) (e : Event) :
  consistent st /\ lines_from_catalog st ->
  offered st e ->
  (exists st', react st e = Js.Normal st')
  /\ consistent (step st e) /\ lines_from_catalog (step st e).
Proof.
  intros [Hc Hl] Hoff. split; [|split; [now apply step_consistent|]].
  - destruct e; simpl; eauto.
    + apply (call_total_on_line st item (quantity item - 1)); auto.
    + apply (call_total_on_line st item (quantity item + 1)); auto.
  - destruct (action_of e) as [a|] eqn:A.
    + destruct (step_cart_event st e a A) as [_ ->].
      apply dispatch_lines_from_catalog; [|assumption].
      intros p ->. destruct e; simpl in A; try discriminate.
      injection A as <-. destruct Hoff as [Hin _].
      now apply offered_add_in_catalog.
    + destruct (step_filter_event st e A) as (next & Hr & Hp & _ & Hcart & _).
      unfold step. rewrite Hr. unfold lines_from_catalog in *.
      destruct (filter_effect_fields st next) as (-> & -> & _).
      now rewrite Hp, Hcart.
Qed.

Lemma play_strict_play (events : list Event) (st : State) :
  consistent st /\ lines_from_catalog st ->
  offered_all st events ->
  play_strict st events = Js.Normal (play st events).
Proof.
  revert st. induction events as [|e events IH]; intros st Hinv Hoff;
    [reflexivity|].
  destruct Hoff as [He Hrest].
  destruct (offered_step st e Hinv He) as ([st' Hr] & Hc & Hl).
  simpl. unfold play. simpl. fold (play (step st e) events).
  assert (E : step st e = st') by (unfold step; now rewrite Hr).
  rewrite Hr. simpl. rewrite <- E. apply IH; auto.
Qed.

(** X19.  On the page no handler ever throws: in a session of events on
    controls that the page shows when they are used, every handler
    returns, so the session run to the first throw is the whole session. *)
Theorem page_never_throws (response : Js.completion (list Product))
    (events : list Event) :
  offered_all (mount response) events ->
  play_strict (mount response) events = Js.Normal (play (mount response) events).
Proof.
  apply play_strict_play. split; [apply mount_consistent|].
  unfold lines_from_catalog. destruct response; constructor.
Qed.

Lemma page_never_throws_witness :
  play_strict (mount (Js.Normal two_shirts))
    [SearchInput "RED"; AddClick red_shirt; PlusClick (line red_shirt 1);
     PlusClick (line red_shirt 2); MinusClick (line red_shirt 2); ClearClick]
  = Js.Normal
      (play (mount (Js.Normal two_shirts))
         [SearchInput "RED"; AddClick red_shirt; PlusClick (line red_shirt 1);
          PlusClick (line red_shirt 2); MinusClick (line red_shirt 2); ClearClick]).
Proof.
  apply (page_never_throws (Js.Normal two_shirts)).
  simpl. repeat split; auto.
Defined.

Lemma offered_enabled (st : State) (e : Event) (a : Action) :
  consistent st -> offered st e -> action_of e = Some a -> enabled (products st) a.
Proof.
  intros Hc Hoff A. destruct e; simpl in A; try discriminate; injection A as <-;
    simpl; auto.
  destruct Hoff as [Hin Hout]. split; [|assumption].
  now apply offered_add_in_catalog.
Qed.

Lemma offered_step_stocked (catalog : list Product) (st : State) (e : Event) :
  List.NoDup (map id catalog) ->
  Forall (fun p => 0 <= count (rating p)) catalog ->
  consistent st /\ products st = catalog /\ stocked catalog (cart st) ->
  offered st e ->
  consistent (step st e) /\ products (step st e) = catalog
  /\ stocked catalog (cart (step st e)).
Proof.
  intros Hids Hnn (Hc & Hp & Hs) Hoff.
  split; [now apply step_consistent|].
  split; [now rewrite (proj1 (step_products st e))|].
  destruct (action_of e) as [a|] eqn:A.
  - destruct (step_cart_event st e a A) as [_ ->].
    apply (dispatch_stocked catalog Hids Hnn); auto.
    rewrite <- Hp. now apply (offered_enabled st e).
  - destruct (step_filter_event st e A) as (next & Hr & _ & _ & Hcart & _).
    unfold step. rewrite Hr.
    destruct (filter_effect_fields st next) as (_ & -> & _). now rewrite Hcart.
Qed.

(** X20.  On the page the stock ceiling holds: when the catalog delivered
    has one product per id and no negative stock, then after any session
    of events on controls the page shows, every line of the cart has a
    quantity from 1 to the stock of its product, and no two lines have the
    same product id. *)
Theorem page_keeps_stock_ceiling (data : list Product) (events : list Event) :
  List.NoDup (map id data) ->
  Forall (fun p => 0 <= count (rating p)) data ->
  offered_all (mount (Js.Normal data)) events ->
  Forall within_stock (cart (play (mount (Js.Normal data)) events))
  /\ List.NoDup (map (fun item : CartItem => id item)
                     (cart (play (mount (Js.Normal data)) events))).
Proof.
  intros Hids Hnn Hoff.
  assert (H : consistent (play (mount (Js.Normal data)) events)
              /\ products (play (mount (Js.Normal data)) events) = data
              /\ stocked data (cart (play (mount (Js.Normal data)) events))).
  { apply (play_offered
             (fun st => consistent st /\ products st = data /\ stocked data (cart st))).
    - intros st e Hinv He. now apply offered_step_stocked.
    - split; [apply mount_consistent|]. split; [reflexivity|].
      split; constructor.
    - exact Hoff. }
  destruct H as (_ & _ & Hu & Hall). split; [|exact Hu].
  eapply Forall_impl; [exact Hall|]. intros item [_ Hw]. exact Hw.
Qed.

Lemma page_keeps_stock_ceiling_witness :
  Forall within_stock
    (cart (play (mount (Js.Normal [red_shirt; sold_out]))
             [AddClick red_shirt; PlusClick (line red_shirt 1);
              PlusClick (line red_shirt 2); SortSelect "low-high"])).
Proof.
  apply (page_keeps_stock_ceiling [red_shirt; sold_out]).
  - simpl. constructor; [simpl; intros [H | []]; discriminate|].
    constructor; [intros [] | constructor].
  - repeat constructor; simpl; lia.
  - simpl. repeat split; auto.
Defined.

Lemma computeView_nil (searchTerm selectedCategory sortOrder : string) :
  computeView [] searchTerm selectedCategory sortOrder = [].
Proof.
  apply Permutation_nil. symmetry.
  apply (computeView_sorted_or_not [] searchTerm selectedCategory sortOrder).
Qed.

Lemma offered_step_failed (st : State) (e : Event) :
  consistent st /\ products st = [] /\ cart st = [] ->
  offered st e ->
  consistent (step st e) /\ products (step st e) = [] /\ cart (step st e) = [].
Proof.
  intros (Hc & Hp & Hcart) Hoff.
  split; [now apply step_consistent|].
  split; [now rewrite (proj1 (step_products st e))|].
  assert (Hf : filteredProducts st = []).
  { rewrite Hc, Hp. apply computeView_nil. }
  destruct e; simpl in Hoff; try (rewrite Hcart in Hoff; destruct Hoff);
    try (rewrite Hf in Hoff; destruct Hoff as [[] _]);
    unfold step; simpl; unfold filter_effect;
    match goal with |- context [same_criteria ?a ?b] =>
      destruct (same_criteria a b) end; assumption.
Qed.

(** X21.  When the fetch fails the page has nothing to act on: the list
    of products stays empty under every criterion, and no control that
    the page shows can put a line into the cart. *)
Theorem failed_fetch_empty_page (error : Js.exn) (events : list Event) :
  offered_all (mount (Js.Throw error)) events ->
  filteredProducts (play (mount (Js.Throw error)) events) = []
  /\ cart (play (mount (Js.Throw error)) events) = []
  /\ getCategories (play (mount (Js.Throw error)) events) = [].
Proof.
  intros Hoff.
  assert (H : consistent (play (mount (Js.Throw error)) events)
              /\ products (play (mount (Js.Throw error)) events) = []
              /\ cart (play (mount (Js.Throw error)) events) = []).
  { apply (play_offered (fun st => consistent st /\ products st = [] /\ cart st = [])).
    - apply offered_step_failed.
    - repeat split.
    - exact Hoff. }
  destruct H as (Hc & Hp & Hcart). split; [|split; [exact Hcart|]].
  - rewrite Hc, Hp. apply computeView_nil.
  - unfold getCategories. now rewrite Hp.
Qed.

Lemma failed_fetch_empty_page_witness :
  filteredProducts
    (play (mount (Js.Throw Js.TypeError)) [SearchInput "shirt"; SortSelect "high-low"; ClearClick])
  = [].
Proof.
  apply (failed_fetch_empty_page Js.TypeError
           [SearchInput "shirt"; SortSelect "high-low"; ClearClick]).
  simpl. repeat split; auto.
Defined.

(** ** The two sort orders *)

Lemma StronglySorted_snoc {A : Type} (R : A -> A -> Prop) (l : list A) (x : A) :
  StronglySorted R l -> Forall (fun y => R y x) l -> StronglySorted R (l ++ [x]).
Proof.
  induction 1 as [|y l Hl IH Hy]; intros Hx; simpl.
  - constructor; constructor.
  - apply Forall_cons in Hx as [Hyx Hx]. constructor; [auto|].
    apply Forall_app. split; [assumption|]. constructor; [assumption | constructor].
Qed.

Lemma StronglySorted_rev {A : Type} (R : A -> A -> Prop) (l : list A) :
  StronglySorted R l -> StronglySorted (fun a b => R b a) (rev l).
Proof.
  induction 1 as [|x l Hl IH Hx]; simpl; [constructor|].
  apply StronglySorted_snoc; [assumption|].
  apply List.Forall_forall. intros y Hy. apply in_rev in Hy.
  rewrite List.Forall_forall in Hx. auto.
Qed.

Lemma rev_short {A : Type} (l : list A) : (length l <= 1)%nat -> rev l = l.
Proof. destruct l as [|x [|y l]]; simpl; intros H; [reflexivity | reflexivity | lia]. Qed.

Lemma filter_commute {A : Type} (f g : A -> bool) (l : list A) :
  List.filter f (List.filter g l) = List.filter g (List.filter f l).
Proof. rewrite !filter_filter. apply filter_ext. intros x. apply andb_comm. Qed.

(** X22.  When no two products of the catalog have the same price, the
    view from high to low is the view from low to high read backwards. *)
Theorem high_low_is_low_high_reversed (products : list Product)
    (searchTerm selectedCategory : string) :
  (forall v, (length (List.filter (price_is v) products) <= 1)%nat) ->
  computeView products searchTerm selectedCategory "high-low"
  = rev (computeView products searchTerm selectedCategory "low-high").
Proof.
  intros Hdistinct.
  rewrite (computeView_cases products searchTerm selectedCategory "high-low").
  rewrite (computeView_cases products searchTerm selectedCategory "low-high").
  cbv zeta. simpl String.eqb. cbv iota.
  set (before := computeView products searchTerm selectedCategory "").
  symmetry. apply sort_high_low_determined.
  - rewrite <- Permutation_rev. apply sort_perm.
  - apply (StronglySorted_rev (fun a b => (price a <= price b)%Q)).
    apply low_high_sorted.
  - intros v. rewrite List.filter_rev.
    assert (S : List.filter (price_is v) (Js.sort low_high before)
                = List.filter (price_is v) before).
    { apply sort_stable. intros x y Hx Hy. apply low_high_le.
      pose proof (price_is_tied v x y Hx Hy). lra. }
    rewrite S. apply rev_short.
    unfold before. rewrite computeView_unsorted, filter_commute.
    etransitivity; [apply List.filter_length_le | apply Hdistinct].
Qed.

Lemma high_low_is_low_high_reversed_witness :
  computeView two_shirts "" "" "high-low" = rev (computeView two_shirts "" "" "low-high").
Proof.
  apply (high_low_is_low_high_reversed two_shirts "" "").
  intros v. unfold two_shirts, price_is. simpl.
  destruct (Qeq_bool (30 # 1) v) eqn:E1, (Qeq_bool (20 # 1) v) eqn:E2; simpl; try lia.
  apply Qeq_bool_iff in E1, E2. rewrite <- E2 in E1. discriminate.
Defined.

(** ** What the controls leave alone *)

(** X23.  [Clear All Filters] always brings the whole catalog onto the
    page, in catalog order, also when the criteria were empty already and
    the filter effect does not run. *)
Theorem clear_shows_the_catalog (response : Js.completion (list Product))
    (events : list Event) :
  filteredProducts (play (mount response) (events ++ [ClearClick]))
  = match response with Js.Normal data => data | Js.Throw _ => [] end.
Proof.
  unfold play. rewrite fold_left_app. fold (play (mount response) events). simpl.
  pose proof (play_consistent events (mount response) (mount_consistent response)) as Hc.
  destruct (play_products events (mount response)) as [Hp _].
  set (st := play (mount response) events) in *.
  assert (E : filteredProducts (step st ClearClick) = products st).
  { unfold step. simpl. unfold filter_effect.
    destruct (same_criteria st (clearFilters st)) eqn:S; [|reflexivity].
    unfold same_criteria in S. simpl in S.
    apply andb_true_iff in S. destruct S as [S S3].
    apply andb_true_iff in S. destruct S as [S1 S2].
    apply String.eqb_eq in S1, S2, S3. simpl.
    unfold consistent in Hc. rewrite Hc, S1, S2, S3. reflexivity. }
  rewrite E, Hp. now destruct response.
Qed.

(** X24.  The search input, the selectors and the clear button never
    touch the cart; the cart buttons never touch the list on the page or a
    criterion. *)
Theorem controls_keep_apart (st : State) (e : Event) :
  match action_of e with
  | None => cart (step st e) = cart st
  | Some _ =>
      filteredProducts (step st e) = filteredProducts st
      /\ searchTerm (step st e) = searchTerm st
      /\ selectedCategory (step st e) = selectedCategory st
      /\ sortOrder (step st e) = sortOrder st
  end.
Proof.
  destruct (action_of e) as [a|] eqn:A.
  - destruct (step_cart_event st e a A) as [_ ->].
    destruct (dispatch_fields st a) as (H1 & H2 & H3 & H4 & _). auto.
  - destruct (step_filter_event st e A) as (next & Hr & _ & _ & Hcart & _).
    unfold step. rewrite Hr.
    destruct (filter_effect_fields st next) as (_ & -> & _). exact Hcart.
Qed.

(** X25.  [updateQuantity] never makes a line: for a product id with no
    line in the cart the cart stays as it is, whatever the quantity asked
    for and whether or not the catalog has the id. *)
Theorem updateQuantity_makes_no_line (st : State) (productId newQuantity : Z) :
  List.find (has_id productId) (cart st) = None ->
  cart (dispatch st (UpdateQuantity productId newQuantity)) = cart st.
Proof.
  intros Hnone. rewrite dispatch_cart.
  pose proof (proj1 (find_id_None productId (cart st)) Hnone) as Hne.
  destruct (List.find _ (products st)) as [p|]; [|reflexivity].
  destruct (newQuantity <=? 0).
  - apply filter_unchanged_iff. intros item Hin. apply has_id_false. auto.
  - destruct (newQuantity <=? count (rating p)); [|reflexivity].
    rewrite <- (map_id (cart st)) at 2. apply map_ext_in. intros item Hin.
    unfold assign. destruct (Z.eqb_spec (id item) productId) as [E|]; [|reflexivity].
    exfalso. now apply (Hne item).
Qed.

Lemma updateQuantity_makes_no_line_witness :
  cart (dispatch one_shirt_in_cart (UpdateQuantity 3 1)) = cart one_shirt_in_cart.
Proof.
  apply (updateQuantity_makes_no_line one_shirt_in_cart 3 1). reflexivity.
Defined.
